(** * Order lifecycle engine of food_order_backend (api/models.py, api/serializers.py)

    Shallow embedding of the Django models [Customer], [MenuItem], [Order],
    [OrderItem], [Payment], [OrderStatusEvent], of [Order.recalculate_totals],
    of [PlaceOrderSerializer] (validation and [create]) and of
    [UpdateOrderStatusSerializer.update] as used by [OrderStatusUpdateView].

    The database is an explicit [Store] of tables.  Every write may fail
    (a database error) according to a fault list of the environment, and
    the unique constraints of the models are checked on insert.  Outside a
    [transaction.atomic] block writes are committed at once (Django's
    default autocommit, [ATOMIC_REQUESTS] off); an [atomic] block restores
    the store it started from when its body raises.  The random
    [get_random_string(10)] is an environment source of tokens. *)

From Stdlib Require Import ZArith Lia Bool.
From Stdlib Require Import Floats.SpecFloat.
From stdpp Require Import base gmap strings list sorting.

Open Scope Z_scope.

(* ------------------------------------------------------------------ *)
(** ** Floating point and Python's [round] *)

Module PyFloat.

(** IEEE binary64, the format of a Python [float]. *)
Definition prec : Z := 53.
Definition emax : Z := 1024.

Definition float := spec_float.

(** [float(n)] of a Python [int]: correctly rounded, OverflowError
    (here [None]) when the result is not finite. *)
Definition of_int (n : Z) : option float :=
  match binary_normalize prec emax n 0 false with
  | S754_infinity _ | S754_nan => None
  | f => Some f
  end.

Definition mul (x y : float) : float := SFmul prec emax x y.

(** The literal [0.08]: the binary64 value nearest to 8/100, i.e. the
    correctly rounded quotient of the exact floats 8 and 100. *)
Definition lit_0_08 : float :=
  SFdiv prec emax (binary_normalize prec emax 8 0 false)
                  (binary_normalize prec emax 100 0 false).

(** Round half to even of the non-negative number [m * 2^e]. *)
Definition round_half_even_pos (m : positive) (e : Z) : Z :=
  if 0 <=? e then Z.pos m * 2 ^ e
  else
    let d := 2 ^ (- e) in
    let q := Z.pos m / d in
    let r := Z.pos m mod d in
    match Z.compare (2 * r) d with
    | Lt => q
    | Gt => q + 1
    | Eq => if Z.even q then q else q + 1
    end.

(** [round(x)] for a float [x]: the nearest integer, ties to even;
    OverflowError / ValueError (here [None]) on infinities and NaN. *)
Definition round (x : float) : option Z :=
  match x with
  | S754_zero _ => Some 0
  | S754_finite s m e =>
      let n := round_half_even_pos m e in Some (if s then - n else n)
  | S754_infinity _ | S754_nan => None
  end.

End PyFloat.

(* ------------------------------------------------------------------ *)
(** ** Data model (api/models.py) *)

Inductive Status :=
  | PENDING | CONFIRMED | PREPARING | READY | OUT_FOR_DELIVERY
  | COMPLETED | CANCELLED.

#[global] Instance Status_eq_dec : EqDecision Status.
Proof. solve_decision. Defined.

(** [Order.Status.values]: the strings accepted by the [ChoiceField]. *)
Definition status_value (st : Status) : string :=
  match st with
  | PENDING => "PENDING" | CONFIRMED => "CONFIRMED"
  | PREPARING => "PREPARING" | READY => "READY"
  | OUT_FOR_DELIVERY => "OUT_FOR_DELIVERY"
  | COMPLETED => "COMPLETED" | CANCELLED => "CANCELLED"
  end.

Definition all_statuses : list Status :=
  [PENDING; CONFIRMED; PREPARING; READY; OUT_FOR_DELIVERY; COMPLETED; CANCELLED].

(** [serializers.ChoiceField(choices=Order.Status.choices)]. *)
Definition parse_status (s : string) : option Status :=
  List.find (fun st => bool_decide (status_value st = s)) all_statuses.

Inductive PaymentMethod := CARD | CASH | WALLET.
Inductive PaymentStatus := INITIATED | AUTHORIZED | CAPTURED | FAILED | REFUNDED.

(** Timestamps are abstract instants. *)
Definition instant := nat.

Record Customer := mkCustomer {
  customer_id : nat;
  email : string;
  full_name : string;
  phone : string;
  default_address : string;
  customer_is_active : bool;
  customer_updated_at : instant;
}.

Record MenuItem := mkMenuItem {
  menu_item_pk : nat;
  price_cents : Z;
  is_available : bool;
  menu_item_is_active : bool;
}.

Record Order := mkOrder {
  order_id : nat;
  order_number : string;
  order_customer : nat;
  status : Status;
  special_instructions : string;
  subtotal_cents : Z;
  tax_cents : Z;
  delivery_fee_cents : Z;
  total_cents : Z;
  eta : option instant;
  order_updated_at : instant;
}.

Record OrderItem := mkOrderItem {
  item_id : nat;
  item_order : nat;
  item_menu_item : nat;
  quantity : Z;
  unit_price_cents : Z;
}.

Record Payment := mkPayment {
  payment_order : nat;
  method : PaymentMethod;
  amount_cents : Z;
  currency : string;
  payment_status : PaymentStatus;
}.

Record OrderStatusEvent := mkEvent {
  event_order : nat;
  from_status : Status;
  to_status : Status;
  event_at : instant;
}.

(* ------------------------------------------------------------------ *)
(** ** [Order.recalculate_totals] *)

(** [sum(i.quantity * i.unit_price_cents for i in items)]. *)
Definition line_sum (items : list OrderItem) : Z :=
  fold_left (fun acc i => acc + quantity i * unit_price_cents i) items 0.

(** [int(round(subtotal * 0.08))]. *)
Definition tax_of (subtotal : Z) : option Z :=
  match PyFloat.of_int subtotal with
  | Some x => PyFloat.round (PyFloat.mul x PyFloat.lit_0_08)
  | None => None
  end.

Definition with_totals (o : Order) (sub tax tot : Z) : Order :=
  {| order_id := order_id o; order_number := order_number o;
     order_customer := order_customer o; status := status o;
     special_instructions := special_instructions o;
     subtotal_cents := sub; tax_cents := tax;
     delivery_fee_cents := delivery_fee_cents o; total_cents := tot;
     eta := eta o; order_updated_at := order_updated_at o |}.

(** [self] is the order, [items] what [self.items.all()] returns.
    [None] is the exception raised by the float conversion or [round]. *)
Definition recalculate_totals (items : list OrderItem) (self : Order) : option Order :=
  let subtotal := line_sum items in
  match tax_of subtotal with
  | Some tax => Some (with_totals self subtotal tax (subtotal + tax + delivery_fee_cents self))
  | None => None
  end.

Example tax_of_3600 : tax_of 3600 = Some 288.
Proof. vm_compute. reflexivity. Qed.

Example tax_of_small : map tax_of [0; 1; 6; 7; 12; 13; 1000; 1250] =
  [Some 0; Some 0; Some 0; Some 1; Some 1; Some 1; Some 80; Some 100].
Proof. vm_compute. reflexivity. Qed.

(* ------------------------------------------------------------------ *)
(** ** Python string helpers *)

(** Characters for which [str.isspace()] holds, restricted to ASCII. *)
Definition is_py_space (c : Ascii.ascii) : bool :=
  let n := Ascii.nat_of_ascii c in
  ((9 <=? n) && (n <=? 13) || (28 <=? n) && (n <=? 32))%nat.

Fixpoint drop_space (l : list Ascii.ascii) : list Ascii.ascii :=
  match l with
  | c :: r => if is_py_space c then drop_space r else l
  | [] => []
  end.

(** [str.strip()]. *)
Definition py_strip (s : string) : string :=
  String.string_of_list_ascii
    (rev (drop_space (rev (drop_space (String.list_ascii_of_string s))))).

Definition upper_char (c : Ascii.ascii) : Ascii.ascii :=
  let n := Ascii.nat_of_ascii c in
  if ((97 <=? n) && (n <=? 122))%nat then Ascii.ascii_of_nat (n - 32) else c.

(** [str.upper()] (ASCII letters). *)
Definition py_upper (s : string) : string :=
  String.string_of_list_ascii (map upper_char (String.list_ascii_of_string s)).

(** Python truthiness of [dict.get(k)] for a string-valued dict. *)
Definition truthy (o : option string) : bool :=
  match o with Some v => negb (bool_decide (v = "")) | None => false end.

Definition get_default (o : option string) (d : string) : string :=
  match o with Some v => v | None => d end.

(* ------------------------------------------------------------------ *)
(** ** The database and the execution monad *)

Record Store := mkStore {
  customers : list Customer;
  menu_items : list MenuItem;
  orders : list Order;
  order_items : list OrderItem;
  payments : list Payment;
  events : list OrderStatusEvent;
  next_id : nat;
  now : instant;
}.

(** The environment: which writes fail (a database error; an exhausted
    list means no failure) and the output of [get_random_string]. *)
Record Env := mkEnv {
  faults : list bool;
  rng : nat -> string;
  draws : nat;
}.

Inductive Error :=
  | ValidationError | IntegrityError | DatabaseError | NotFound | OverflowError.

Inductive Outcome (A : Type) := Ok (a : A) | Err (e : Error).
Arguments Ok {A} a.
Arguments Err {A} e.

Definition M (A : Type) : Type := Store -> Env -> Outcome A * Store * Env.

Definition ret {A} (a : A) : M A := fun s e => (Ok a, s, e).

Definition raise {A} (er : Error) : M A := fun s e => (Err er, s, e).

Definition bind {A B} (m : M A) (k : A -> M B) : M B :=
  fun s e =>
    match m s e with
    | (Ok a, s', e') => k a s' e'
    | (Err er, s', e') => (Err er, s', e')
    end.

Notation "'let*' x ':=' m 'in' k" := (bind m (fun x => k))
  (at level 200, x name, m at level 100, k at level 200).

Definition get_store : M Store := fun s e => (Ok s, s, e).

(** [with transaction.atomic(): body]: an exception rolls the database
    back to the state at the start of the block and propagates. *)
Definition atomic {A} (body : M A) : M A :=
  fun s e =>
    match body s e with
    | (Err er, _, e') => (Err er, s, e')
    | r => r
    end.

Definition pop_fault (e : Env) : bool * Env :=
  match faults e with
  | b :: fs => (b, mkEnv fs (rng e) (draws e))
  | [] => (false, e)
  end.

(** One SQL write: it may fail, and it is refused with an IntegrityError
    when [ok] (the table constraints) does not hold. *)
Definition write (ok : Store -> bool) (upd : Store -> Store) : M unit :=
  fun s e =>
    let '(fault, e') := pop_fault e in
    if fault then (Err DatabaseError, s, e')
    else if ok s then (Ok tt, upd s, e') else (Err IntegrityError, s, e').

(** [get_random_string(10)]. *)
Definition get_random_string : M string :=
  fun s e => (Ok (rng e (draws e)), s, mkEnv (faults e) (rng e) (S (draws e))).

(** Store setters. *)
Definition set_customers (s : Store) (l : list Customer) : Store :=
  mkStore l (menu_items s) (orders s) (order_items s) (payments s) (events s) (next_id s) (now s).
Definition set_orders (s : Store) (l : list Order) : Store :=
  mkStore (customers s) (menu_items s) l (order_items s) (payments s) (events s) (next_id s) (now s).
Definition set_order_items (s : Store) (l : list OrderItem) : Store :=
  mkStore (customers s) (menu_items s) (orders s) l (payments s) (events s) (next_id s) (now s).
Definition set_payments (s : Store) (l : list Payment) : Store :=
  mkStore (customers s) (menu_items s) (orders s) (order_items s) l (events s) (next_id s) (now s).
Definition set_events (s : Store) (l : list OrderStatusEvent) : Store :=
  mkStore (customers s) (menu_items s) (orders s) (order_items s) (payments s) l (next_id s) (now s).
Definition bump_id (s : Store) : Store :=
  mkStore (customers s) (menu_items s) (orders s) (order_items s) (payments s) (events s) (S (next_id s)) (now s).

(** The rows of [OrderItem] whose order is [oid] ([order.items.all()]). *)
Definition order_items_of (s : Store) (oid : nat) : list OrderItem :=
  filter (fun i => item_order i = oid) (order_items s).

(* ------------------------------------------------------------------ *)
(** ** ORM operations *)

Definition replace_customer (c : Customer) (l : list Customer) : list Customer :=
  map (fun x => if decide (customer_id x = customer_id c) then c else x) l.

Definition replace_order (o : Order) (l : list Order) : list Order :=
  map (fun x => if decide (order_id x = order_id o) then o else x) l.

(** [Customer.objects.get_or_create(email=email, defaults=...)]; the
    unique constraint is on [email]. *)
Definition get_or_create_customer (em name ph addr : string) : M Customer :=
  fun s e =>
    match List.find (fun c => bool_decide (email c = em)) (customers s) with
    | Some c => (Ok c, s, e)
    | None =>
        let c := mkCustomer (next_id s) em name ph addr true (now s) in
        match write (fun s => forallb (fun x => bool_decide (email x <> em)) (customers s))
                    (fun s => bump_id (set_customers s (customers s ++ [c]))) s e with
        | (Ok _, s', e') => (Ok c, s', e')
        | (Err er, s', e') => (Err er, s', e')
        end
    end.

Definition set_customer_updated_at (c : Customer) (t : instant) : Customer :=
  mkCustomer (customer_id c) (email c) (full_name c) (phone c) (default_address c)
             (customer_is_active c) t.

(** [customer.save()]: writes every field, [auto_now] sets [updated_at]. *)
Definition save_customer (c : Customer) : M Customer :=
  fun s e =>
    let c' := set_customer_updated_at c (now s) in
    match write (fun _ => true) (fun s => set_customers s (replace_customer c' (customers s))) s e with
    | (Ok _, s', e') => (Ok c', s', e')
    | (Err er, s', e') => (Err er, s', e')
    end.

(** [Order.objects.create(order_number=..., customer=...,
    special_instructions=..., delivery_fee_cents=...)]; [order_number] is
    unique. *)
Definition create_order (number : string) (cust : nat) (instr : string) (fee : Z) : M Order :=
  fun s e =>
    let o := mkOrder (next_id s) number cust PENDING instr 0 0 fee 0 None (now s) in
    match write (fun s => forallb (fun x => bool_decide (order_number x <> number)) (orders s))
                (fun s => bump_id (set_orders s (orders s ++ [o]))) s e with
    | (Ok _, s', e') => (Ok o, s', e')
    | (Err er, s', e') => (Err er, s', e')
    end.

Definition set_order_updated_at (o : Order) (t : instant) : Order :=
  mkOrder (order_id o) (order_number o) (order_customer o) (status o)
          (special_instructions o) (subtotal_cents o) (tax_cents o)
          (delivery_fee_cents o) (total_cents o) (eta o) t.

(** [order.save()]. *)
Definition save_order (o : Order) : M Order :=
  fun s e =>
    let o' := set_order_updated_at o (now s) in
    match write (fun _ => true) (fun s => set_orders s (replace_order o' (orders s))) s e with
    | (Ok _, s', e') => (Ok o', s', e')
    | (Err er, s', e') => (Err er, s', e')
    end.

Definition set_status_fields (row : Order) (st : Status) (t : instant) : Order :=
  mkOrder (order_id row) (order_number row) (order_customer row) st
          (special_instructions row) (subtotal_cents row) (tax_cents row)
          (delivery_fee_cents row) (total_cents row) (eta row) t.

(** [instance.save(update_fields=["status", "updated_at"])]: only these
    two columns of the row are written. *)
Definition save_order_status (o : Order) : M Order :=
  fun s e =>
    let o' := set_order_updated_at o (now s) in
    match write (fun _ => true)
                (fun s => set_orders s (map (fun x => if decide (order_id x = order_id o)
                                                     then set_status_fields x (status o') (now s)
                                                     else x) (orders s))) s e with
    | (Ok _, s', e') => (Ok o', s', e')
    | (Err er, s', e') => (Err er, s', e')
    end.

(** [OrderItem.objects.create(order=order, **item)]; unique on
    [(order, menu_item)]. *)
Definition create_order_item (oid mi : nat) (q price : Z) : M unit :=
  fun s e =>
    let i := mkOrderItem (next_id s) oid mi q price in
    write (fun s => forallb (fun x => negb (bool_decide (item_order x = oid /\ item_menu_item x = mi)))
                            (order_items s))
          (fun s => bump_id (set_order_items s (order_items s ++ [i]))) s e.

(** [Payment.objects.create(order=order, ...)]; one-to-one with [Order]. *)
Definition create_payment (oid : nat) (m : PaymentMethod) (amount : Z) (cur : string)
    (st : PaymentStatus) : M unit :=
  write (fun s => forallb (fun x => bool_decide (payment_order x <> oid)) (payments s))
        (fun s => set_payments s (payments s ++ [mkPayment oid m amount cur st])).

(** [OrderStatusEvent.objects.create(order=..., from_status=..., to_status=...)];
    [at] defaults to [timezone.now]. *)
Definition create_status_event (oid : nat) (from to : Status) : M unit :=
  fun s e =>
    write (fun _ => true)
          (fun s => set_events s (events s ++ [mkEvent oid from to (now s)])) s e.

(** [order.recalculate_totals()] on the instance, reading [self.items.all()]
    from the database. *)
Definition recalculate_totals_db (o : Order) : M Order :=
  fun s e =>
    match recalculate_totals (order_items_of s (order_id o)) o with
    | Some o' => (Ok o', s, e)
    | None => (Err OverflowError, s, e)
    end.

(* ------------------------------------------------------------------ *)
(** ** [PlaceOrderSerializer]: validation *)

(** A request body, already parsed from JSON. *)
Record ItemRequest := mkItemRequest {
  req_menu_item_id : nat;
  req_quantity : Z;
}.

Record PlaceOrderRequest := mkPlaceOrderRequest {
  req_customer : gmap string string;
  req_items : list ItemRequest;
  req_special_instructions : option string;
  req_delivery_fee_cents : option Z;
}.

(** [validated_data]. *)
Record ItemData := mkItemData {
  data_menu_item : nat;
  data_quantity : Z;
  data_unit_price_cents : Z;
}.

Record PlaceOrderData := mkPlaceOrderData {
  data_customer : gmap string string;
  data_items : list ItemData;
  data_special_instructions : option string;
  data_delivery_fee_cents : Z;
}.

(** [serializers.CharField()]: whitespace is trimmed, blank is refused. *)
Definition char_field (v : string) : option string :=
  let v' := py_strip v in if bool_decide (v' = "") then None else Some v'.

(** [serializers.DictField(child=serializers.CharField(), allow_empty=False)]. *)
Definition dict_field (m : gmap string string) : option (gmap string string) :=
  if bool_decide (m = ∅) then None
  else if bool_decide (map_Forall (fun _ v => is_Some (char_field v)) m)
  then Some (omap char_field m) else None.

(** [PlaceOrderSerializer.validate_customer]. *)
Definition validate_customer (value : gmap string string) : option (gmap string string) :=
  if truthy (value !! "email") && truthy (value !! "full_name") then Some value else None.

(** [PrimaryKeyRelatedField(queryset=MenuItem.objects.filter(is_active=True,
    is_available=True))]. *)
Definition menu_item_queryset_get (s : Store) (pk : nat) : option MenuItem :=
  List.find (fun m => bool_decide (menu_item_pk m = pk) && menu_item_is_active m && is_available m)
            (menu_items s).

(** [OrderItemCreateSerializer.to_internal_value]: quantity in [1, 100],
    price snapshot attached. *)
Definition validate_item (s : Store) (r : ItemRequest) : option ItemData :=
  match menu_item_queryset_get s (req_menu_item_id r) with
  | Some m =>
      if (1 <=? req_quantity r) && (req_quantity r <=? 100)
      then Some (mkItemData (req_menu_item_id r) (req_quantity r) (price_cents m))
      else None
  | None => None
  end.

(** [OrderItemCreateSerializer(many=True)]: a [ListSerializer] with DRF's
    default [allow_empty=True]. *)
Fixpoint validate_items (s : Store) (rs : list ItemRequest) : option (list ItemData) :=
  match rs with
  | [] => Some []
  | r :: rs' =>
      match validate_item s r, validate_items s rs' with
      | Some d, Some ds => Some (d :: ds)
      | _, _ => None
      end
  end.

(** [serializers.IntegerField(required=False, min_value=0, default=0)]. *)
Definition validate_fee (f : option Z) : option Z :=
  match f with None => Some 0 | Some n => if 0 <=? n then Some n else None end.

(** [serializer.is_valid()]; [None] is a ValidationError. *)
Definition validate_place_order (s : Store) (r : PlaceOrderRequest) : option PlaceOrderData :=
  match dict_field (req_customer r) with
  | None => None
  | Some cd =>
      match validate_customer cd, validate_items s (req_items r),
            validate_fee (req_delivery_fee_cents r) with
      | Some cd', Some items, Some fee =>
          Some (mkPlaceOrderData cd' items (option_map py_strip (req_special_instructions r)) fee)
      | _, _, _ => None
      end
  end.

(* ------------------------------------------------------------------ *)
(** ** [PlaceOrderSerializer.create] *)

Definition set_customer_fields (c : Customer) (n p a : string) : Customer :=
  mkCustomer (customer_id c) (email c) n p a (customer_is_active c) (customer_updated_at c).

(** The three [if ...: customer.x = ...; updated = True] statements. *)
Definition update_customer_fields (c : Customer) (cd : gmap string string) : Customer * bool :=
  let '(n, u1) :=
    if truthy (cd !! "full_name") && bool_decide (full_name c <> get_default (cd !! "full_name") "")
    then (get_default (cd !! "full_name") "", true) else (full_name c, false) in
  let '(p, u2) :=
    if bool_decide (is_Some (cd !! "phone")) && bool_decide (phone c <> get_default (cd !! "phone") "")
    then (get_default (cd !! "phone") "", true) else (phone c, false) in
  let '(a, u3) :=
    if bool_decide (is_Some (cd !! "address")) && bool_decide (default_address c <> get_default (cd !! "address") "")
    then (get_default (cd !! "address") "", true) else (default_address c, false) in
  (set_customer_fields c n p a, u1 || u2 || u3).

Fixpoint create_order_items (oid : nat) (items : list ItemData) : M unit :=
  match items with
  | [] => ret tt
  | d :: ds =>
      let* _ := create_order_item oid (data_menu_item d) (data_quantity d) (data_unit_price_cents d) in
      create_order_items oid ds
  end.

Definition place_order_create (v : PlaceOrderData) : M Order :=
  let cd := data_customer v in
  let* customer := get_or_create_customer (get_default (cd !! "email") "")
                     (get_default (cd !! "full_name") "") (get_default (cd !! "phone") "")
                     (get_default (cd !! "address") "") in
  let '(customer, updated) := update_customer_fields customer cd in
  let* customer := (if updated then save_customer customer else ret customer) in
  atomic (
    let* token := get_random_string in
    let* order := create_order (py_upper token) (customer_id customer)
                    (get_default (data_special_instructions v) "") (data_delivery_fee_cents v) in
    let* _ := create_order_items (order_id order) (data_items v) in
    let* order := recalculate_totals_db order in
    let* order := save_order order in
    let* _ := create_payment (order_id order) CARD (total_cents order) "USD" INITIATED in
    let* _ := create_status_event (order_id order) PENDING PENDING in
    ret order).

(** The customer upsert of [create] (the statements before
    [transaction.atomic()]): [get_or_create] by email, the field updates,
    and [customer.save()] when a field changed. *)
Definition customer_upsert (v : PlaceOrderData) : M Customer :=
  let cd := data_customer v in
  let* customer := get_or_create_customer (get_default (cd !! "email") "")
                     (get_default (cd !! "full_name") "") (get_default (cd !! "phone") "")
                     (get_default (cd !! "address") "") in
  let '(customer, updated) := update_customer_fields customer cd in
  (if updated then save_customer customer else ret customer).

(** [PlaceOrderView.post]: [is_valid(raise_exception=True)] then [save()]. *)
Definition place_order (r : PlaceOrderRequest) : M Order :=
  let* s := get_store in
  match validate_place_order s r with
  | None => raise ValidationError
  | Some v => place_order_create v
  end.

(* ------------------------------------------------------------------ *)
(** ** [UpdateOrderStatusSerializer.update] and [OrderStatusUpdateView.patch] *)

Definition mark_status (o : Order) (new_status : Status) : Order :=
  mkOrder (order_id o) (order_number o) (order_customer o) new_status
          (special_instructions o) (subtotal_cents o) (tax_cents o)
          (delivery_fee_cents o) (total_cents o) (eta o) (order_updated_at o).

Definition update_status (instance : Order) (new_status : Status) : M Order :=
  let old_status := status instance in
  if decide (new_status = old_status) then ret instance
  else
    let instance := mark_status instance new_status in
    let* instance := save_order_status instance in
    let* _ := create_status_event (order_id instance) old_status new_status in
    ret instance.

(** [self.get_object()] by [order_number]: 404 when absent. *)
Definition get_order (number : string) : M Order :=
  fun s e =>
    match List.find (fun o => bool_decide (order_number o = number)) (orders s) with
    | Some o => (Ok o, s, e)
    | None => (Err NotFound, s, e)
    end.

Definition transition_status (number : string) (body_status : string) : M Order :=
  let* order := get_order number in
  match parse_status body_status with
  | None => raise ValidationError
  | Some st => update_status order st
  end.

(* ------------------------------------------------------------------ *)
(** ** [OrderEventsView.list] (api/views.py) *)

(** One entry of the payload: [from_status], [to_status], [at]. *)
Definition event_payload (ev : OrderStatusEvent) : Status * Status * instant :=
  (from_status ev, to_status ev, event_at ev).

(** [order_by("-at")]: newest first.  The database may return rows with
    equal [at] in any order; the model sorts stably, and the properties
    below do not depend on the order of such rows. *)
Definition newer_or_same (a b : OrderStatusEvent) : Prop := (event_at b <= event_at a)%nat.

#[global] Instance newer_or_same_dec : RelDecision newer_or_same.
Proof. intros a b. unfold newer_or_same. apply _. Defined.

(** [Order.objects.get(order_number=...)] (404 when absent), then
    [OrderStatusEvent.objects.filter(order=order).order_by("-at")]. *)
Definition order_events (number : string) : M (list (Status * Status * instant)) :=
  fun s e =>
    match List.find (fun o => bool_decide (order_number o = number)) (orders s) with
    | None => (Err NotFound, s, e)
    | Some o =>
        (Ok (map event_payload
               (merge_sort newer_or_same (filter (fun ev => event_order ev = order_id o) (events s)))),
         s, e)
    end.

(* ------------------------------------------------------------------ *)
(** ** Auxiliary descriptions of the database *)

(** The rows [create_order_items oid items] inserts when the first
    primary key it is given is [base]. *)
Fixpoint new_items (oid base : nat) (items : list ItemData) : list OrderItem :=
  match items with
  | [] => []
  | d :: ds =>
      mkOrderItem base oid (data_menu_item d) (data_quantity d) (data_unit_price_cents d)
        :: new_items oid (S base) ds
  end.

(** The auto-increment invariant: every stored reference to an order is
    below the next primary key. *)
Definition references_below_next_id (s : Store) : bool :=
  forallb (fun o => Nat.ltb (order_id o) (next_id s)) (orders s) &&
  forallb (fun i => Nat.ltb (item_order i) (next_id s)) (order_items s) &&
  forallb (fun p => Nat.ltb (payment_order p) (next_id s)) (payments s) &&
  forallb (fun ev => Nat.ltb (event_order ev) (next_id s)) (events s).

(** The rows of the order table after the status UPDATE of order [o]. *)
Definition orders_with_status (l : list Order) (o : Order) (st : Status) (t : instant) : list Order :=
  map (fun x => if decide (order_id x = order_id o) then set_status_fields x st t else x) l.

(* ================================================================== *)
(** * Properties *)

(** ** Monad and step lemmas *)

Lemma bind_ok {A B} (m : M A) (k : A -> M B) s e b s'' e'' :
  bind m k s e = (Ok b, s'', e'') ->
  exists a s' e', m s e = (Ok a, s', e') /\ k a s' e' = (Ok b, s'', e'').
Proof.
  unfold bind. destruct (m s e) as [[[a|er] s'] e']; intros H; [eauto | discriminate].
Qed.

Lemma bind_err {A B} (m : M A) (k : A -> M B) s e er s'' e'' :
  bind m k s e = (Err er, s'', e'') ->
  m s e = (Err er, s'', e'') \/
  exists a s' e', m s e = (Ok a, s', e') /\ k a s' e' = (Err er, s'', e'').
Proof.
  unfold bind. destruct (m s e) as [[[a|er'] s'] e']; intros H; [right; eauto | left; congruence].
Qed.

Lemma atomic_ok {A} (body : M A) s e a s' e' :
  atomic body s e = (Ok a, s', e') -> body s e = (Ok a, s', e').
Proof. unfold atomic. destruct (body s e) as [[[x|er] s1] e1]; congruence. Qed.

(** An exception leaves the database as it was when the block started. *)
Lemma atomic_err {A} (body : M A) s e er s' e' :
  atomic body s e = (Err er, s', e') -> s' = s.
Proof. unfold atomic. destruct (body s e) as [[[x|er'] s1] e1]; congruence. Qed.

Ltac inv_bind H :=
  apply bind_ok in H; destruct H as (? & ? & ? & ? & H); cbn beta in H.

(** The order side of the database: the tables of the order aggregate. *)
Definition order_tables_unchanged (s s' : Store) : Prop :=
  orders s' = orders s /\ order_items s' = order_items s /\
  payments s' = payments s /\ events s' = events s /\ menu_items s' = menu_items s.

Definition env_frame (e e' : Env) : Prop := rng e' = rng e /\ draws e' = draws e.

Lemma order_tables_unchanged_refl s : order_tables_unchanged s s.
Proof. repeat split. Qed.

Lemma order_tables_unchanged_trans s1 s2 s3 :
  order_tables_unchanged s1 s2 -> order_tables_unchanged s2 s3 ->
  order_tables_unchanged s1 s3.
Proof. unfold order_tables_unchanged. intuition congruence. Qed.

Ltac run_write H :=
  repeat match goal with e : Env |- _ => destruct e as [[|[] ?] ? ?] end;
  unfold write, pop_fault in H; simpl in H;
  repeat (case_match; simpl in H); simplify_eq.

Lemma get_or_create_customer_frame em n p a s e r s' e' :
  get_or_create_customer em n p a s e = (r, s', e') ->
  order_tables_unchanged s s' /\ env_frame e e'.
Proof.
  unfold get_or_create_customer. intros H.
  destruct (List.find _ _) eqn:Hf.
  - simplify_eq. split; [apply order_tables_unchanged_refl | split; reflexivity].
  - run_write H; unfold order_tables_unchanged, env_frame; simpl; repeat split.
Qed.

Lemma save_customer_frame c s e r s' e' :
  save_customer c s e = (r, s', e') -> order_tables_unchanged s s' /\ env_frame e e'.
Proof.
  unfold save_customer. intros H. run_write H;
  unfold order_tables_unchanged, env_frame; simpl; repeat split.
Qed.

Lemma get_random_string_ok s e tok s' e' :
  get_random_string s e = (Ok tok, s', e') ->
  tok = rng e (draws e) /\ s' = s /\ rng e' = rng e /\ draws e' = S (draws e).
Proof. unfold get_random_string. intros H. simplify_eq. repeat split. Qed.

Lemma create_order_ok number cust instr fee s e o s' e' :
  create_order number cust instr fee s e = (Ok o, s', e') ->
  o = mkOrder (next_id s) number cust PENDING instr 0 0 fee 0 None (now s) /\
  forallb (fun x => bool_decide (order_number x <> number)) (orders s) = true /\
  orders s' = orders s ++ [o] /\ order_items s' = order_items s /\ env_frame e e'.
Proof.
  unfold create_order. intros H. run_write H; unfold env_frame; simpl; repeat split; auto.
Qed.

Lemma create_order_items_ok oid items s e u s' e' :
  create_order_items oid items s e = (Ok u, s', e') ->
  orders s' = orders s /\ env_frame e e'.
Proof.
  revert s e. induction items as [|d ds IH]; intros s e H; simpl in H.
  - unfold ret in H. simplify_eq. split; [|split]; reflexivity.
  - inv_bind H. destruct (IH _ _ H) as [Ho He]. rewrite Ho.
    match goal with Hm : create_order_item _ _ _ _ _ _ = _ |- _ =>
      unfold create_order_item in Hm; run_write Hm end;
    unfold env_frame in *; simpl in *; intuition congruence.
Qed.

Lemma recalculate_totals_db_ok o s e o' s' e' :
  recalculate_totals_db o s e = (Ok o', s', e') ->
  recalculate_totals (order_items_of s (order_id o)) o = Some o' /\ s' = s /\ e' = e.
Proof. unfold recalculate_totals_db. intros H. case_match; simplify_eq. repeat split. Qed.

Lemma save_order_ok o s e o' s' e' :
  save_order o s e = (Ok o', s', e') ->
  o' = set_order_updated_at o (now s) /\ orders s' = replace_order o' (orders s) /\
  order_items s' = order_items s /\ env_frame e e'.
Proof. unfold save_order. intros H. run_write H; unfold env_frame; simpl; repeat split; auto. Qed.

Lemma create_payment_ok oid m amt cur st s e u s' e' :
  create_payment oid m amt cur st s e = (Ok u, s', e') ->
  orders s' = orders s /\ order_items s' = order_items s /\ env_frame e e'.
Proof. unfold create_payment. intros H. run_write H; unfold env_frame; simpl; repeat split; auto. Qed.

Lemma create_status_event_ok oid fr to s e u s' e' :
  create_status_event oid fr to s e = (Ok u, s', e') ->
  orders s' = orders s /\ order_items s' = order_items s /\ env_frame e e'.
Proof. unfold create_status_event. intros H. run_write H; unfold env_frame; simpl; repeat split; auto. Qed.

(** [recalculate_totals] leaves every field but the three totals alone. *)
Lemma recalculate_totals_shape items o o' :
  recalculate_totals items o = Some o' ->
  exists tax, tax_of (line_sum items) = Some tax /\
    o' = with_totals o (line_sum items) tax (line_sum items + tax + delivery_fee_cents o).
Proof. unfold recalculate_totals. intros H. case_match; simplify_eq. eauto. Qed.


(** The steps of [place_order] before the transaction. *)
Lemma place_order_prefix_ok r s e o s' e' :
  place_order r s e = (Ok o, s', e') ->
  exists v c s2 e2, validate_place_order s r = Some v /\
    order_tables_unchanged s s2 /\ env_frame e e2 /\
    atomic (
      let* token := get_random_string in
      let* order := create_order (py_upper token) (customer_id c)
                      (get_default (data_special_instructions v) "") (data_delivery_fee_cents v) in
      let* _ := create_order_items (order_id order) (data_items v) in
      let* order := recalculate_totals_db order in
      let* order := save_order order in
      let* _ := create_payment (order_id order) CARD (total_cents order) "USD" INITIATED in
      let* _ := create_status_event (order_id order) PENDING PENDING in
      ret order) s2 e2 = (Ok o, s', e').
Proof.
  unfold place_order. intros H.
  apply bind_ok in H as (s0 & s1 & e1 & Hg & H); cbn beta in H.
  unfold get_store in Hg. injection Hg as <- <- <-.
  destruct (validate_place_order s r) as [v|] eqn:Hv; [|unfold raise in H; discriminate].
  unfold place_order_create in H.
  apply bind_ok in H as (c0 & s2 & e2 & Hc & H); cbn beta in H.
  apply get_or_create_customer_frame in Hc as [Hs2 He2].
  destruct (update_customer_fields c0 _) as [c1 u].
  apply bind_ok in H as (c2 & s3 & e3 & Hu & H); cbn beta in H.
  assert (order_tables_unchanged s2 s3 /\ env_frame e2 e3) as [Hs3 He3].
  { destruct u; [eapply save_customer_frame; eauto|].
    unfold ret in Hu. simplify_eq. split; [apply order_tables_unchanged_refl|split; reflexivity]. }
  exists v, c2, s3, e3. split; [first [exact Hv | reflexivity]|]. split; [eapply order_tables_unchanged_trans; eauto|].
  split; [unfold env_frame in *; intuition congruence | exact H].
Qed.

Lemma in_replace_order_last o o0 (l : list Order) :
  order_id o = order_id o0 -> In o (replace_order o (l ++ [o0])).
Proof.
  intros Hid. unfold replace_order. rewrite map_app. apply in_or_app. right.
  simpl. left. rewrite decide_True by congruence. reflexivity.
Qed.

(** What a successful [place_order] produced. *)
Lemma place_order_ok_facts r s e o s' e' :
  place_order r s e = (Ok o, s', e') ->
  In o (orders s') /\
  total_cents o = subtotal_cents o + tax_cents o + delivery_fee_cents o /\
  subtotal_cents o = line_sum (order_items_of s' (order_id o)) /\
  order_number o = py_upper (rng e (draws e)) /\
  forallb (fun x => bool_decide (order_number x <> order_number o)) (orders s) = true /\
  draws e' = S (draws e).
Proof.
  intros H. apply place_order_prefix_ok in H as (v & c & s2 & e2 & _ & Hs2 & He2 & H).
  apply atomic_ok in H.
  apply bind_ok in H as (tok & s3 & e3 & Htok & H); cbn beta in H.
  apply get_random_string_ok in Htok as (-> & -> & Hr3 & Hd3).
  apply bind_ok in H as (o0 & s4 & e4 & Ho0 & H); cbn beta in H.
  apply create_order_ok in Ho0 as (Ho0 & Hfresh & Hord4 & Hit4 & He4).
  apply bind_ok in H as (u5 & s5 & e5 & Hits & H); cbn beta in H.
  apply create_order_items_ok in Hits as (Hord5 & He5).
  apply bind_ok in H as (o1 & s6 & e6 & Hrec & H); cbn beta in H.
  apply recalculate_totals_db_ok in Hrec as (Hrec & -> & ->).
  apply bind_ok in H as (o2 & s7 & e7 & Hsave & H); cbn beta in H.
  apply save_order_ok in Hsave as (-> & Hord7 & Hit7 & He7).
  apply bind_ok in H as (u8 & s8 & e8 & Hpay & H); cbn beta in H.
  apply create_payment_ok in Hpay as (Hord8 & Hit8 & He8).
  apply bind_ok in H as (u9 & s9 & e9 & Hev & H); cbn beta in H.
  apply create_status_event_ok in Hev as (Hord9 & Hit9 & He9).
  unfold ret in H. injection H as Ho -> ->. subst o.
  apply recalculate_totals_shape in Hrec as (tax & Htax & ->).
  destruct Hs2 as (Hord2 & _). unfold env_frame in *.
  assert (Hitems : order_items_of s' (order_id o0) = order_items_of s5 (order_id o0)).
  { unfold order_items_of. congruence. }
  simpl. rewrite Hitems. destruct He2 as [Hr2 Hd2]. repeat split.
  - rewrite Hord9, Hord8, Hord7, Hord5, Hord4. apply in_replace_order_last. reflexivity.
  - rewrite Ho0. simpl. rewrite Hr2, Hd2. reflexivity.
  - rewrite <- Hord2. rewrite Ho0. exact Hfresh.
  - intuition lia.
Qed.

(** ** Concrete data *)

Definition menu_fixture : list MenuItem :=
  [mkMenuItem 1 1200 true true; mkMenuItem 2 500 false true].

Definition store_fixture : Store := mkStore [] menu_fixture [] [] [] [] 10 0%nat.

Definition env_fixture : Env :=
  mkEnv [] (fun n => if Nat.eqb n 0 then "abcdefghij" else "klmnopqrst") 0.

Definition ann_fixture : gmap string string :=
  <["email" := "ann@example.com"]> (<["full_name" := "Ann"]> ∅).

(** One pizza at 1200 cents, quantity 3, delivery fee 200 cents. *)
Definition req_fixture : PlaceOrderRequest :=
  mkPlaceOrderRequest ann_fixture [mkItemRequest 1 3] None (Some 200).

Example lit_0_08_value : PyFloat.lit_0_08 = S754_finite false 5764607523034235 (-56).
Proof. vm_compute. reflexivity. Qed.

(** For small subtotals the float computation is exact decimal rounding:
    [2 * n / 25] is never a tie, so ties-to-even is never exercised. *)
Lemma tax_of_small_range :
  forallb (fun n => bool_decide (tax_of (Z.of_nat n) = Some ((8 * Z.of_nat n + 50) / 100)))
          (seq 0 (Z.to_nat 5001)) = true.
Proof. vm_compute. reflexivity. Qed.

(** ** C1, C2, C8, C10: totals *)

(** C1: [recalculate_totals] establishes [total = subtotal + tax +
    delivery_fee] and [subtotal = Σ quantity × unit_price] over the line
    items it reads, and a successful [place_order] stores an order whose
    totals satisfy both equations for its line items in the database. *)
Theorem totals_invariant :
  (forall (items : list OrderItem) (o o' : Order),
     recalculate_totals items o = Some o' ->
     total_cents o' = subtotal_cents o' + tax_cents o' + delivery_fee_cents o' /\
     subtotal_cents o' = line_sum items) /\
  (forall r s e o s' e',
     place_order r s e = (Ok o, s', e') ->
     In o (orders s') /\
     total_cents o = subtotal_cents o + tax_cents o + delivery_fee_cents o /\
     subtotal_cents o = line_sum (order_items_of s' (order_id o))).
Proof.
  split.
  - intros items o o' H. apply recalculate_totals_shape in H as (tax & _ & ->).
    simpl. split; reflexivity.
  - intros r s e o s' e' H. apply place_order_ok_facts in H. intuition.
Qed.

Definition order_fixture : Order :=
  mkOrder 11 "ABCDEFGHIJ" 10 PENDING "" 0 0 200 0 None 0%nat.

Definition line_fixture : list OrderItem := [mkOrderItem 12 11 1 3 1200].

Lemma totals_invariant_witness :
  (exists o',
    recalculate_totals line_fixture order_fixture = Some o' /\
    total_cents o' = subtotal_cents o' + tax_cents o' + delivery_fee_cents o' /\
    subtotal_cents o' = line_sum line_fixture) /\
  (exists o s' e',
    place_order req_fixture store_fixture env_fixture = (Ok o, s', e') /\
    In o (orders s') /\
    total_cents o = subtotal_cents o + tax_cents o + delivery_fee_cents o /\
    subtotal_cents o = line_sum (order_items_of s' (order_id o))).
Proof.
  split.
  - match eval vm_compute in (recalculate_totals line_fixture order_fixture) with
    | Some ?o' =>
        assert (H : recalculate_totals line_fixture order_fixture = Some o')
          by (vm_compute; reflexivity);
        exists o'; split; [exact H | exact (proj1 totals_invariant _ _ _ H)]
    end.
  - match eval vm_compute in (place_order req_fixture store_fixture env_fixture) with
    | (Ok ?o, ?s', ?e') =>
        assert (H : place_order req_fixture store_fixture env_fixture = (Ok o, s', e'))
          by (vm_compute; reflexivity);
        exists o, s', e'; split; [exact H | exact (proj2 totals_invariant _ _ _ _ _ _ H)]
    end.
Defined.

(** C2: the tax is [int(round(subtotal * 0.08))] evaluated in binary64
    (the subtotal converted to a float, multiplied by the float [0.08],
    rounded to an integer, ties to even); for one line of 3 × 1200 cents
    and a delivery fee of 200 cents, placing the order yields subtotal
    3600, tax 288 and total 4088. *)
Theorem tax_rounding :
  (forall (items : list OrderItem) (o o' : Order),
     recalculate_totals items o = Some o' ->
     exists x, PyFloat.of_int (line_sum items) = Some x /\
               PyFloat.round (PyFloat.mul x PyFloat.lit_0_08) = Some (tax_cents o')) /\
  (exists o s' e',
     place_order req_fixture store_fixture env_fixture = (Ok o, s', e') /\
     subtotal_cents o = 3600 /\ tax_cents o = 288 /\ total_cents o = 4088).
Proof.
  split.
  - intros items o o' H. apply recalculate_totals_shape in H as (tax & Htax & ->).
    unfold tax_of in Htax. destruct (PyFloat.of_int (line_sum items)) as [x|]; [|discriminate].
    exists x. split; [reflexivity | exact Htax].
  - match eval vm_compute in (place_order req_fixture store_fixture env_fixture) with
    | (Ok ?o, ?s', ?e') =>
        exists o, s', e'; split; [vm_compute; reflexivity | repeat split]
    end.
Qed.

Lemma tax_rounding_witness :
  exists o',
    recalculate_totals line_fixture order_fixture = Some o' /\
    exists x, PyFloat.of_int (line_sum line_fixture) = Some x /\
              PyFloat.round (PyFloat.mul x PyFloat.lit_0_08) = Some (tax_cents o').
Proof.
  match eval vm_compute in (recalculate_totals line_fixture order_fixture) with
  | Some ?o' =>
      assert (H : recalculate_totals line_fixture order_fixture = Some o')
        by (vm_compute; reflexivity);
      exists o'; split; [exact H | exact (proj1 tax_rounding _ _ _ H)]
  end.
Defined.

(** C8: [recalculate_totals] is idempotent: on unchanged line items a
    second call gives the totals of the first, both on the instance and
    when run against the database (which it does not write). *)
Theorem recalculate_totals_idempotent :
  (forall (items : list OrderItem) (o : Order),
     (recalculate_totals items o ≫= recalculate_totals items) = recalculate_totals items o) /\
  (forall (o : Order) (s : Store) (e : Env),
     (let* o1 := recalculate_totals_db o in recalculate_totals_db o1) s e =
     recalculate_totals_db o s e).
Proof.
  assert (Hpure : forall (items : list OrderItem) (o : Order),
     (recalculate_totals items o ≫= recalculate_totals items) = recalculate_totals items o).
  { intros items o. destruct (recalculate_totals items o) as [o'|] eqn:H; simpl; [|reflexivity].
    apply recalculate_totals_shape in H as (tax & Htax & ->).
    unfold recalculate_totals. rewrite Htax. reflexivity. }
  split; [exact Hpure|].
  intros o s e. unfold bind, recalculate_totals_db.
  destruct (recalculate_totals (order_items_of s (order_id o)) o) as [o'|] eqn:H; [|reflexivity].
  pose proof (recalculate_totals_shape _ _ _ H) as (tax & _ & Ho').
  assert (Hid : order_id o' = order_id o) by (rewrite Ho'; reflexivity).
  rewrite Hid. specialize (Hpure (order_items_of s (order_id o)) o). rewrite H in Hpure.
  simpl in Hpure. rewrite Hpure. reflexivity.
Qed.

(** C10: [recalculate_totals] changes only [subtotal_cents], [tax_cents]
    and [total_cents]: every other field of the order is kept, and running
    it against the database writes nothing (the line items are untouched). *)
Theorem recalculate_totals_frame (items : list OrderItem) (o o' : Order) :
  recalculate_totals items o = Some o' ->
  delivery_fee_cents o' = delivery_fee_cents o /\ status o' = status o /\
  order_number o' = order_number o /\
  special_instructions o' = special_instructions o /\ eta o' = eta o /\
  order_id o' = order_id o /\ order_customer o' = order_customer o /\
  order_updated_at o' = order_updated_at o /\
  (forall s e r s' e', recalculate_totals_db o s e = (r, s', e') -> s' = s /\ e' = e).
Proof.
  intros H. apply recalculate_totals_shape in H as (tax & _ & ->).
  simpl. repeat split;
  match goal with Hdb : recalculate_totals_db _ _ _ = _ |- _ =>
    unfold recalculate_totals_db in Hdb; case_match; simplify_eq; reflexivity end.
Qed.

Lemma recalculate_totals_frame_witness :
  exists o',
    recalculate_totals line_fixture order_fixture = Some o' /\
    delivery_fee_cents o' = delivery_fee_cents order_fixture /\ status o' = status order_fixture /\
    order_number o' = order_number order_fixture /\
    special_instructions o' = special_instructions order_fixture /\ eta o' = eta order_fixture /\
    order_id o' = order_id order_fixture /\ order_customer o' = order_customer order_fixture /\
    order_updated_at o' = order_updated_at order_fixture /\
    (forall s e r s' e', recalculate_totals_db order_fixture s e = (r, s', e') -> s' = s /\ e' = e).
Proof.
  match eval vm_compute in (recalculate_totals line_fixture order_fixture) with
  | Some ?o' =>
      assert (H : recalculate_totals line_fixture order_fixture = Some o')
        by (vm_compute; reflexivity);
      exists o'; split; [exact H | exact (recalculate_totals_frame _ _ _ H)]
  end.
Defined.

(** ** C3: failure atomicity of [place_order] *)

(** A database holding one placed order of 3 × 1200 cents. *)
Definition ann_customer : Customer := mkCustomer 10 "ann@example.com" "Ann" "" "" true 0%nat.

Definition placed_order : Order :=
  mkOrder 11 "ABCDEFGHIJ" 10 PENDING "" 3600 288 200 4088 None 0%nat.

Definition store_with_order : Store :=
  mkStore [ann_customer] menu_fixture [placed_order] [mkOrderItem 12 11 1 3 1200]
          [mkPayment 11 CARD 4088 "USD" INITIATED] [mkEvent 11 PENDING PENDING 0%nat] 13 0%nat.

(** The same menu item twice: the second [OrderItem] insert violates the
    unique constraint on [(order, menu_item)]. *)
Definition req_duplicate_lines : PlaceOrderRequest :=
  mkPlaceOrderRequest ann_fixture [mkItemRequest 1 1; mkItemRequest 1 2] None None.

(** C3 (counterexample): the request passes validation, the transaction
    fails with an IntegrityError, yet the Customer row created by the
    upsert before the transaction stays in the database. *)
Lemma failed_order_keeps_customer :
  let '(r, s', _) := place_order req_duplicate_lines store_fixture env_fixture in
  r = Err IntegrityError /\ orders s' = [] /\ customers s' <> customers store_fixture.
Proof. vm_compute. split; [reflexivity | split; [reflexivity | discriminate]]. Qed.

Lemma bind_get_store {B} (k : Store -> M B) s e : bind get_store k s e = k s s e.
Proof. reflexivity. Qed.

(** C3 (amended): a failing [place_order] leaves the Order, OrderItem,
    Payment and OrderStatusEvent tables (and the menu) as they were. A
    request that fails validation changes nothing. A request that passes
    validation runs the Customer upsert before and outside the transaction:
    the Customer table after the failure is exactly the one the upsert left,
    so a Customer row it created or updated stays in the database, also when
    the transaction that follows is rolled back. *)
Theorem failed_place_order_leaves_order_tables r s e er s' e' :
  place_order r s e = (Err er, s', e') ->
  order_tables_unchanged s s' /\
  (validate_place_order s r = None -> s' = s) /\
  (forall v, validate_place_order s r = Some v ->
     let '(_, s1, _) := customer_upsert v s e in customers s' = customers s1).
Proof.
  intros H. split; [|split].
  - unfold place_order in H.
    apply bind_err in H as [Hg | (s0 & s1 & e1 & Hg & H)];
      unfold get_store in Hg; [discriminate|].
    injection Hg as <- <- <-. cbn beta in H.
    destruct (validate_place_order s r) as [v|];
      [|unfold raise in H; simplify_eq; apply order_tables_unchanged_refl].
    unfold place_order_create in H.
    apply bind_err in H as [Hc | (c0 & s2 & e2 & Hc & H)].
    { apply get_or_create_customer_frame in Hc. tauto. }
    apply get_or_create_customer_frame in Hc as [Hs2 _]. cbn beta in H.
    destruct (update_customer_fields c0 _) as [c1 u].
    assert (Hsave : forall r3 s3 e3, (if u then save_customer c1 else ret c1) s2 e2 = (r3, s3, e3) ->
                    order_tables_unchanged s2 s3).
    { intros r3 s3 e3 Hu. destruct u; [eapply save_customer_frame; eauto|].
      unfold ret in Hu. simplify_eq. apply order_tables_unchanged_refl. }
    apply bind_err in H as [Hu | (c2 & s3 & e3 & Hu & H)].
    + eapply order_tables_unchanged_trans; [exact Hs2 | eapply Hsave; eauto].
    + apply atomic_err in H. subst s'.
      eapply order_tables_unchanged_trans; [exact Hs2 | eapply Hsave; eauto].
  - intros Hv. unfold place_order in H. rewrite bind_get_store in H. cbn beta in H.
    rewrite Hv in H. unfold raise in H. congruence.
  - intros v Hv. unfold place_order in H. rewrite bind_get_store in H. cbn beta in H.
    rewrite Hv in H. unfold place_order_create in H. unfold customer_upsert.
    unfold bind at 1 in H. unfold bind at 1.
    match type of H with
    | context [get_or_create_customer ?a ?b ?c ?d s e] =>
        destruct (get_or_create_customer a b c d s e) as [[[c0|er0] s2] e2]
    end; [|injection H as _ <- _; reflexivity].
    destruct (update_customer_fields c0 (data_customer v)) as [c1 u].
    unfold bind at 1 in H.
    destruct ((if u then save_customer c1 else ret c1) s2 e2) as [[[c2|er2] s3] e3].
    + apply atomic_err in H. subst s'. reflexivity.
    + injection H as _ <- _. reflexivity.
Qed.

Lemma failed_place_order_leaves_order_tables_witness :
  exists er s' e',
    place_order req_duplicate_lines store_fixture env_fixture = (Err er, s', e') /\
    (order_tables_unchanged store_fixture s' /\
     (validate_place_order store_fixture req_duplicate_lines = None -> s' = store_fixture) /\
     (forall v, validate_place_order store_fixture req_duplicate_lines = Some v ->
        let '(_, s1, _) := customer_upsert v store_fixture env_fixture in customers s' = customers s1)).
Proof.
  match eval vm_compute in (place_order req_duplicate_lines store_fixture env_fixture) with
  | (Err ?er, ?s', ?e') =>
      assert (H : place_order req_duplicate_lines store_fixture env_fixture = (Err er, s', e'))
        by (vm_compute; reflexivity);
      exists er, s', e'; split; [exact H | exact (failed_place_order_leaves_order_tables _ _ _ _ _ _ H)]
  end.
Defined.

(** ** C5: order numbers *)

(** C5 (counterexample): the first token collides with the stored order
    number ["ABCDEFGHIJ"]; [place_order] fails with the database's
    IntegrityError after drawing a single token, although the next token
    of the generator would have been fresh: there is no retry. *)
Lemma order_number_collision_not_retried :
  let '(r, _, e') := place_order req_fixture store_with_order env_fixture in
  r = Err IntegrityError /\ draws e' = 1%nat /\
  forallb (fun x => bool_decide (order_number x <> py_upper (rng env_fixture 1)))
          (orders store_with_order) = true.
Proof. vm_compute. repeat split. Qed.

(** C5 (amended): [place_order] draws one random token, uppercases it and
    inserts the order without a pre-check or a retry; the unique
    constraint on [order_number] is what keeps it fresh: a successful
    placement's number differs from every order already stored, so two
    orders placed in sequence receive distinct numbers. *)
Theorem order_number_unique :
  (forall r s e o s' e',
     place_order r s e = (Ok o, s', e') ->
     order_number o = py_upper (rng e (draws e)) /\ draws e' = S (draws e) /\
     Forall (fun x => order_number x <> order_number o) (orders s) /\ In o (orders s')) /\
  (forall r1 r2 s e o1 s1 e1 o2 s2 e2,
     place_order r1 s e = (Ok o1, s1, e1) ->
     place_order r2 s1 e1 = (Ok o2, s2, e2) ->
     order_number o1 <> order_number o2).
Proof.
  assert (Hone : forall r s e o s' e',
     place_order r s e = (Ok o, s', e') ->
     order_number o = py_upper (rng e (draws e)) /\ draws e' = S (draws e) /\
     Forall (fun x => order_number x <> order_number o) (orders s) /\ In o (orders s')).
  { intros r s e o s' e' H.
    apply place_order_ok_facts in H as (Hin & _ & _ & Hnum & Hfresh & Hd).
    repeat split; auto. apply List.Forall_forall. intros x Hx.
    rewrite forallb_forall in Hfresh. specialize (Hfresh x Hx).
    apply bool_decide_eq_true in Hfresh. exact Hfresh. }
  split; [exact Hone|].
  intros r1 r2 s e o1 s1 e1 o2 s2 e2 H1 H2 Heq.
  apply Hone in H1 as (_ & _ & _ & Hin1). apply Hone in H2 as (_ & _ & Hfresh2 & _).
  rewrite List.Forall_forall in Hfresh2. exact (Hfresh2 o1 Hin1 Heq).
Qed.

Lemma order_number_unique_witness :
  exists o1 s1 e1 o2 s2 e2,
    place_order req_fixture store_fixture env_fixture = (Ok o1, s1, e1) /\
    place_order req_fixture s1 e1 = (Ok o2, s2, e2) /\
    order_number o1 = py_upper (rng env_fixture (draws env_fixture)) /\
    order_number o1 <> order_number o2.
Proof.
  match eval vm_compute in (place_order req_fixture store_fixture env_fixture) with
  | (Ok ?o1, ?s1, ?e1) =>
    assert (H1 : place_order req_fixture store_fixture env_fixture = (Ok o1, s1, e1))
      by (vm_compute; reflexivity);
    match eval vm_compute in (place_order req_fixture s1 e1) with
    | (Ok ?o2, ?s2, ?e2) =>
      assert (H2 : place_order req_fixture s1 e1 = (Ok o2, s2, e2))
        by (vm_compute; reflexivity);
      exists o1, s1, e1, o2, s2, e2;
      split; [exact H1|]; split; [exact H2|];
      split; [exact (proj1 (proj1 order_number_unique _ _ _ _ _ _ H1))
             | exact (proj2 order_number_unique _ _ _ _ _ _ _ _ _ _ H1 H2)]
    end
  end.
Defined.

(** ** C6: an order without line items *)

Definition req_no_lines : PlaceOrderRequest :=
  mkPlaceOrderRequest ann_fixture [] None None.

(** C6 (the code at the failing input): an empty [items] list passes
    validation and [place_order] commits an Order with no OrderItem, a
    Payment and an OrderStatusEvent. *)
Lemma empty_order_is_placed :
  let '(r, s', _) := place_order req_no_lines store_fixture env_fixture in
  (exists o, r = Ok o /\ total_cents o = 0) /\
  length (orders s') = 1%nat /\ order_items s' = [] /\
  length (payments s') = 1%nat /\ length (events s') = 1%nat.
Proof. vm_compute. split; [eexists; split; reflexivity | repeat split]. Qed.

(** ** C7, C4: status transitions *)

(** C7: a transition to the current status returns the order as it is
    and leaves the database untouched: no OrderStatusEvent is appended
    and [updated_at] is not written. *)
Theorem same_status_is_noop (number st : string) (s : Store) (e : Env) (o : Order) :
  List.find (fun x => bool_decide (order_number x = number)) (orders s) = Some o ->
  parse_status st = Some (status o) ->
  transition_status number st s e = (Ok o, s, e).
Proof.
  intros Hfind Hst. unfold transition_status, bind, get_order.
  rewrite Hfind. rewrite Hst. unfold update_status.
  rewrite decide_True by reflexivity. reflexivity.
Qed.

Lemma same_status_is_noop_witness :
  transition_status "ABCDEFGHIJ" "PENDING" store_with_order env_fixture =
    (Ok placed_order, store_with_order, env_fixture).
Proof.
  apply same_status_is_noop; vm_compute; reflexivity.
Defined.

(** The status UPDATE succeeds, the event INSERT then fails. *)
Definition env_event_write_fails : Env := mkEnv [false; true] (rng env_fixture) 0.

(** C4 (the code at the failing input): without a transaction around the
    two writes, the order is left CONFIRMED with no event recording it. *)
Lemma status_written_without_event :
  let '(r, s', _) := transition_status "ABCDEFGHIJ" "CONFIRMED" store_with_order env_event_write_fails in
  r = Err DatabaseError /\ map status (orders s') = [CONFIRMED] /\
  events s' = events store_with_order.
Proof. vm_compute. repeat split. Qed.

(** ** C9: the customer upsert *)

(** The merge as the spec words it: a stored field is replaced when the
    caller supplied a non-empty value that differs from it. *)
Definition pick_as_specified (supplied : option string) (old : string) : string :=
  match supplied with
  | Some v => if bool_decide (v <> "" /\ v <> old) then v else old
  | None => old
  end.

Definition merge_as_specified (c : Customer) (d : gmap string string) : Customer :=
  set_customer_fields c (pick_as_specified (d !! "full_name") (full_name c))
                        (pick_as_specified (d !! "phone") (phone c))
                        (pick_as_specified (d !! "address") (default_address c)).

(** A Customer row without its timestamp. *)
Definition customer_fields (c : Customer) : nat * string * string * string * string * bool :=
  (customer_id c, email c, full_name c, phone c, default_address c, customer_is_active c).

Lemma bind_run {A B} (m : M A) (k : A -> M B) s e a s1 e1 :
  m s e = (Ok a, s1, e1) -> bind m k s e = k a s1 e1.
Proof. intros H. unfold bind. rewrite H. reflexivity. Qed.

Definition keeps_customers {A} (m : M A) : Prop :=
  forall s e r s' e', m s e = (r, s', e') -> customers s' = customers s.

Lemma keeps_bind {A B} (m : M A) (k : A -> M B) :
  keeps_customers m -> (forall a, keeps_customers (k a)) -> keeps_customers (bind m k).
Proof.
  intros Hm Hk s e r s' e'. unfold bind.
  destruct (m s e) as [[[a|er] s1] e1] eqn:H1; intros H.
  - rewrite (Hk a _ _ _ _ _ H). exact (Hm _ _ _ _ _ H1).
  - simplify_eq. exact (Hm _ _ _ _ _ H1).
Qed.

Lemma keeps_atomic {A} (body : M A) : keeps_customers body -> keeps_customers (atomic body).
Proof.
  intros Hb s e r s' e'. unfold atomic.
  destruct (body s e) as [[[a|er] s1] e1] eqn:H1; intros H; simplify_eq;
    [exact (Hb _ _ _ _ _ H1) | reflexivity].
Qed.

Lemma keeps_ret {A} (a : A) : keeps_customers (ret a).
Proof. intros s e r s' e' H. unfold ret in H. simplify_eq. reflexivity. Qed.

Ltac keeps_write := intros ? ? ? ? ? Hw; run_write Hw; reflexivity.

Lemma keeps_create_order n c i f : keeps_customers (create_order n c i f).
Proof. unfold create_order. keeps_write. Qed.

Lemma keeps_create_order_items oid items : keeps_customers (create_order_items oid items).
Proof.
  induction items as [|d ds IH]; simpl; [apply keeps_ret|].
  apply keeps_bind; [|intros; exact IH]. unfold create_order_item. keeps_write.
Qed.

Lemma keeps_place_order_body v c :
  keeps_customers (atomic (
    let* token := get_random_string in
    let* order := create_order (py_upper token) (customer_id c)
                    (get_default (data_special_instructions v) "") (data_delivery_fee_cents v) in
    let* _ := create_order_items (order_id order) (data_items v) in
    let* order := recalculate_totals_db order in
    let* order := save_order order in
    let* _ := create_payment (order_id order) CARD (total_cents order) "USD" INITIATED in
    let* _ := create_status_event (order_id order) PENDING PENDING in
    ret order)).
Proof.
  apply keeps_atomic.
  apply keeps_bind; [intros ? ? ? ? ? H; unfold get_random_string in H; simplify_eq; reflexivity|].
  intros tok. apply keeps_bind; [apply keeps_create_order|]. intros o.
  apply keeps_bind; [apply keeps_create_order_items|]. intros _.
  apply keeps_bind; [intros ? ? ? ? ? H; unfold recalculate_totals_db in H; case_match; simplify_eq; reflexivity|].
  intros o1. apply keeps_bind; [unfold save_order; keeps_write|]. intros o2.
  apply keeps_bind; [unfold create_payment; keeps_write|]. intros _.
  apply keeps_bind; [unfold create_status_event; keeps_write|]. intros _.
  apply keeps_ret.
Qed.

Lemma save_customer_cases c s e r s' e' :
  save_customer c s e = (r, s', e') ->
  (r = Ok (set_customer_updated_at c (now s)) /\
   customers s' = replace_customer (set_customer_updated_at c (now s)) (customers s)) \/
  (r = Err DatabaseError /\ s' = s).
Proof. unfold save_customer. intros H. run_write H; auto. Qed.

Lemma find_unique_email (l : list Customer) c :
  NoDup (map email l) -> In c l ->
  List.find (fun x => bool_decide (email x = email c)) l = Some c.
Proof.
  induction l as [|x l IH]; simpl; [tauto|]. intros Hnd [->|Hin].
  - rewrite bool_decide_eq_true_2 by reflexivity. reflexivity.
  - inversion Hnd as [|? ? Hnotin Hnd']; subst.
    rewrite bool_decide_eq_false_2; [exact (IH Hnd' Hin)|].
    intros Heq. apply Hnotin. rewrite Heq. apply list_elem_of_In, in_map, Hin.
Qed.

Lemma unique_id (l : list Customer) c x :
  NoDup (map customer_id l) -> In c l -> In x l -> customer_id x = customer_id c -> x = c.
Proof.
  induction l as [|y l IH]; simpl; [tauto|]. intros Hnd Hc Hx Hid.
  inversion Hnd as [|? ? Hnotin Hnd']; subst.
  destruct Hc as [<-|Hc], Hx as [<-|Hx]; auto.
  - exfalso. apply Hnotin. rewrite <- Hid. apply list_elem_of_In, in_map, Hx.
  - exfalso. apply Hnotin. rewrite Hid. apply list_elem_of_In, in_map, Hc.
Qed.

(** After validation every value of the customer dict is non-blank. *)
Lemma validated_customer_nonblank s r v :
  validate_place_order s r = Some v ->
  forall k x, data_customer v !! k = Some x -> x <> "".
Proof.
  unfold validate_place_order, dict_field, validate_customer. intros H.
  repeat (case_match; simplify_eq; try discriminate).
  intros k x Hk. simpl in Hk. rewrite lookup_omap in Hk.
  destruct (req_customer r !! k) as [y|]; simpl in Hk; [|discriminate].
  unfold char_field in Hk. case_bool_decide; simplify_eq. assumption.
Qed.

Ltac branch_cases :=
  let Hd := fresh "Hd" in
  case_bool_decide as Hd; intros ?; simplify_eq;
  [ rewrite bool_decide_eq_true_2
      by (split; [assumption | intros E; apply Hd; symmetry; exact E]);
    split; [reflexivity | discriminate]
  | case_bool_decide; split; reflexivity ].

Lemma full_name_branch (o : option string) (old n : string) (u : bool) :
  (forall x, o = Some x -> x <> "") ->
  (if truthy o && bool_decide (old <> get_default o "")
   then (get_default o "", true) else (old, false)) = (n, u) ->
  n = pick_as_specified o old /\ (u = false -> n = old).
Proof.
  intros Hne. destruct o as [v|]; simpl; [|intros H; simplify_eq; auto].
  specialize (Hne v eq_refl). unfold truthy.
  rewrite (bool_decide_eq_false_2 (v = "")) by exact Hne. simpl.
  branch_cases.
Qed.

Lemma optional_field_branch (o : option string) (old n : string) (u : bool) :
  (forall x, o = Some x -> x <> "") ->
  (if bool_decide (is_Some o) && bool_decide (old <> get_default o "")
   then (get_default o "", true) else (old, false)) = (n, u) ->
  n = pick_as_specified o old /\ (u = false -> n = old).
Proof.
  intros Hne. destruct o as [v|]; simpl.
  - specialize (Hne v eq_refl).
    try rewrite (bool_decide_eq_true_2 (is_Some (Some v))) by (eexists; reflexivity). simpl.
  branch_cases.
  - intros H; simplify_eq; auto.
Qed.

(** On a validated dict the code's three updates are the specified merge. *)
Lemma update_customer_fields_merge c cd :
  (forall k x, cd !! k = Some x -> x <> "") ->
  customer_fields (fst (update_customer_fields c cd)) = customer_fields (merge_as_specified c cd) /\
  (snd (update_customer_fields c cd) = false ->
   customer_fields (fst (update_customer_fields c cd)) = customer_fields c).
Proof.
  intros Hne. unfold update_customer_fields.
  destruct (if truthy (cd !! "full_name") && _ then _ else _) as [n u1] eqn:E1.
  destruct (if bool_decide (is_Some (cd !! "phone")) && _ then _ else _) as [p u2] eqn:E2.
  destruct (if bool_decide (is_Some (cd !! "address")) && _ then _ else _) as [a u3] eqn:E3.
  apply full_name_branch in E1 as [En1 Eu1]; [|intros x; apply Hne].
  apply optional_field_branch in E2 as [En2 Eu2]; [|intros x; apply Hne].
  apply optional_field_branch in E3 as [En3 Eu3]; [|intros x; apply Hne].
  simpl. unfold customer_fields, merge_as_specified. simpl. split.
  - rewrite En1, En2, En3. reflexivity.
  - intros Hu. apply orb_false_iff in Hu as [Hu Hu3]. apply orb_false_iff in Hu as [Hu1 Hu2].
    rewrite (Eu1 Hu1), (Eu2 Hu2), (Eu3 Hu3). reflexivity.
Qed.

Lemma bind_err_run {A B} (m : M A) (k : A -> M B) s e er s1 e1 :
  m s e = (Err er, s1, e1) -> bind m k s e = (Err er, s1, e1).
Proof. intros H. unfold bind. rewrite H. reflexivity. Qed.

(** C9: when the validated email is that of a stored customer (emails and
    primary keys unique), [place_order] adds no Customer row, and the
    stored row ends up as the specified merge: full name, phone and
    address are replaced exactly when the caller supplied a non-empty
    value that differs; the only other outcome is a failed save of the
    customer, which leaves the row as it was and raises. *)
Theorem upsert_existing_customer r s e c v res s' e' :
  NoDup (map email (customers s)) -> NoDup (map customer_id (customers s)) ->
  In c (customers s) ->
  validate_place_order s r = Some v -> data_customer v !! "email" = Some (email c) ->
  place_order r s e = (res, s', e') ->
  length (customers s') = length (customers s) /\
  (map customer_fields (customers s') =
     map (fun x => if decide (customer_id x = customer_id c)
                   then customer_fields (merge_as_specified c (data_customer v))
                   else customer_fields x) (customers s) \/
   (res = Err DatabaseError /\ customers s' = customers s)).
Proof.
  intros Hem Hids Hc Hv Hmail H.
  unfold place_order in H. rewrite (bind_run get_store _ s e s s e) in H by reflexivity.
  cbn beta in H. rewrite Hv in H. unfold place_order_create in H.
  assert (Hg : get_or_create_customer (get_default (data_customer v !! "email") "")
                 (get_default (data_customer v !! "full_name") "")
                 (get_default (data_customer v !! "phone") "")
                 (get_default (data_customer v !! "address") "") s e = (Ok c, s, e)).
  { rewrite Hmail. simpl. unfold get_or_create_customer.
    rewrite find_unique_email by assumption. reflexivity. }
  rewrite (bind_run _ _ _ _ _ _ _ Hg) in H. cbn beta in H.
  pose proof (update_customer_fields_merge c (data_customer v)
                (validated_customer_nonblank _ _ _ Hv)) as [Hf Hf0].
  destruct (update_customer_fields c (data_customer v)) as [c1 u] eqn:Hu.
  simpl in Hf, Hf0.
  assert (Hid1 : customer_id c1 = customer_id c).
  { pose proof (f_equal (fun t => fst (fst (fst (fst (fst t))))) Hf) as E.
    exact E. }
  destruct ((if u then save_customer c1 else ret c1) s e) as [[[c2|er] s3] e3] eqn:Hs.
  - rewrite (bind_run _ _ _ _ _ _ _ Hs) in H.
    apply keeps_place_order_body in H. rewrite H.
    destruct u.
    + apply save_customer_cases in Hs as [[_ ->] | [? _]]; [|discriminate].
      unfold replace_customer. rewrite length_map. split; [reflexivity|left].
      rewrite map_map. apply map_ext. intros x. simpl. rewrite Hid1.
      destruct (decide (customer_id x = customer_id c)); [exact Hf | reflexivity].
    + unfold ret in Hs. injection Hs as <- <- <-. split; [reflexivity|left].
      apply map_ext_in. intros x Hx.
      destruct (decide (customer_id x = customer_id c)) as [E|]; [|reflexivity].
      rewrite (unique_id _ _ _ Hids Hc Hx E). rewrite <- Hf. symmetry. apply Hf0. reflexivity.
  - rewrite (bind_err_run _ _ _ _ _ _ _ Hs) in H. simplify_eq.
    destruct u.
    + apply save_customer_cases in Hs as [[? _] | [Her ->]]; [discriminate|].
      simplify_eq. split; [reflexivity | right; split; reflexivity].
    + unfold ret in Hs. discriminate.
Qed.

(** Ann orders again with a new full name and a phone number. *)
Definition ann_update : gmap string string :=
  <["email" := "ann@example.com"]> (<["full_name" := "Ann Lee"]> (<["phone" := "555-0100"]> ∅)).

Definition req_update : PlaceOrderRequest :=
  mkPlaceOrderRequest ann_update [mkItemRequest 1 1] None None.

Definition env_second : Env := mkEnv [] (rng env_fixture) 1.

Lemma upsert_existing_customer_witness :
  exists v res s' e',
    validate_place_order store_with_order req_update = Some v /\
    place_order req_update store_with_order env_second = (res, s', e') /\
    length (customers s') = length (customers store_with_order) /\
    (map customer_fields (customers s') =
       map (fun x => if decide (customer_id x = customer_id ann_customer)
                     then customer_fields (merge_as_specified ann_customer (data_customer v))
                     else customer_fields x) (customers store_with_order) \/
     (res = Err DatabaseError /\ customers s' = customers store_with_order)).
Proof.
  match eval vm_compute in (validate_place_order store_with_order req_update) with
  | Some ?v =>
    assert (Hv : validate_place_order store_with_order req_update = Some v)
      by (vm_compute; reflexivity);
    match eval vm_compute in (place_order req_update store_with_order env_second) with
    | (?res, ?s', ?e') =>
      assert (H : place_order req_update store_with_order env_second = (res, s', e'))
        by (vm_compute; reflexivity);
      exists v, res, s', e'; split; [exact Hv|]; split; [exact H|];
      apply (upsert_existing_customer req_update store_with_order env_second ann_customer v res s' e');
      [ vm_compute; apply NoDup_singleton
      | vm_compute; apply NoDup_singleton
      | simpl; left; reflexivity
      | exact Hv
      | vm_compute; reflexivity
      | exact H ]
    end
  end.
Defined.

(** The merge on this input: the name and the phone are replaced. *)
Example upsert_existing_customer_example :
  let '(_, s', _) := place_order req_update store_with_order env_second in
  map customer_fields (customers s') = [(10%nat, "ann@example.com", "Ann Lee", "555-0100", "", true)].
Proof. vm_compute. reflexivity. Qed.

(* ================================================================== *)
(** * Further properties of the order endpoints *)

(** ** Steps of a placement, table by table *)

Lemma update_customer_fields_same c cd :
  full_name c = get_default (cd !! "full_name") "" ->
  phone c = get_default (cd !! "phone") "" ->
  default_address c = get_default (cd !! "address") "" ->
  update_customer_fields c cd = (c, false).
Proof.
  intros H1 H2 H3. unfold update_customer_fields.
  rewrite <- H1, <- H2, <- H3.
  rewrite !(bool_decide_eq_false_2 (_ <> _)) by (intros Hn; exact (Hn eq_refl)).
  rewrite !andb_false_r. destruct c; reflexivity.
Qed.

Lemma update_customer_fields_keys c cd :
  customer_id (fst (update_customer_fields c cd)) = customer_id c /\
  email (fst (update_customer_fields c cd)) = email c.
Proof. unfold update_customer_fields. repeat case_match; simplify_eq; simpl; auto. Qed.

Lemma in_replace_customer c x (l : list Customer) :
  In x l -> customer_id x = customer_id c -> In c (replace_customer c l).
Proof.
  intros Hx Hid. unfold replace_customer. apply in_map_iff. exists x.
  split; [rewrite decide_True by exact Hid; reflexivity | exact Hx].
Qed.

Lemma get_or_create_customer_ok em n p a s e c s' e' :
  get_or_create_customer em n p a s e = (Ok c, s', e') ->
  order_tables_unchanged s s' /\ env_frame e e' /\ now s' = now s /\
  (next_id s <= next_id s')%nat /\ email c = em /\ In c (customers s').
Proof.
  unfold get_or_create_customer. intros H.
  destruct (List.find _ _) as [c0|] eqn:Hf.
  - simplify_eq. apply List.find_some in Hf as [Hin Hem].
    apply bool_decide_eq_true in Hem.
    repeat split; auto.
  - run_write H; unfold order_tables_unchanged, env_frame; simpl; repeat split; auto;
    apply in_or_app; right; left; reflexivity.
Qed.

Lemma save_customer_ok c s e c' s' e' :
  save_customer c s e = (Ok c', s', e') ->
  c' = set_customer_updated_at c (now s) /\
  s' = set_customers s (replace_customer c' (customers s)) /\ env_frame e e'.
Proof. unfold save_customer. intros H. run_write H; unfold env_frame; repeat split; auto. Qed.

Lemma create_order_store number cust instr fee s e o s' e' :
  create_order number cust instr fee s e = (Ok o, s', e') ->
  o = mkOrder (next_id s) number cust PENDING instr 0 0 fee 0 None (now s) /\
  s' = bump_id (set_orders s (orders s ++ [o])) /\ env_frame e e'.
Proof. unfold create_order. intros H. run_write H; unfold env_frame; repeat split; auto. Qed.

Lemma create_order_item_store oid mi q price s e u s' e' :
  create_order_item oid mi q price s e = (Ok u, s', e') ->
  s' = bump_id (set_order_items s (order_items s ++ [mkOrderItem (next_id s) oid mi q price])) /\
  env_frame e e'.
Proof. unfold create_order_item. intros H. run_write H; unfold env_frame; repeat split; auto. Qed.

Lemma create_order_items_store oid items s e u s' e' :
  create_order_items oid items s e = (Ok u, s', e') ->
  s' = mkStore (customers s) (menu_items s) (orders s)
         (order_items s ++ new_items oid (next_id s) items) (payments s) (events s)
         (next_id s + length items) (now s) /\ env_frame e e'.
Proof.
  revert s e. induction items as [|d ds IH]; intros s e H; simpl in H.
  - unfold ret in H. injection H as <- <- <-. simpl. rewrite app_nil_r, Nat.add_0_r.
    split; [destruct s; reflexivity | split; reflexivity].
  - apply bind_ok in H as (u1 & s1 & e1 & H1 & H); cbn beta in H.
    apply create_order_item_store in H1 as [-> He1].
    apply IH in H as [-> He]. unfold env_frame in *. simpl.
    split; [|intuition congruence].
    rewrite <- app_assoc. f_equal. lia.
Qed.

Lemma save_order_store o s e o' s' e' :
  save_order o s e = (Ok o', s', e') ->
  o' = set_order_updated_at o (now s) /\ s' = set_orders s (replace_order o' (orders s)) /\
  env_frame e e'.
Proof. unfold save_order. intros H. run_write H; unfold env_frame; repeat split; auto. Qed.

Lemma create_payment_store oid m amt cur st s e u s' e' :
  create_payment oid m amt cur st s e = (Ok u, s', e') ->
  s' = set_payments s (payments s ++ [mkPayment oid m amt cur st]) /\ env_frame e e'.
Proof. unfold create_payment. intros H. run_write H; unfold env_frame; repeat split; auto. Qed.

Lemma create_status_event_store oid fr to s e u s' e' :
  create_status_event oid fr to s e = (Ok u, s', e') ->
  s' = set_events s (events s ++ [mkEvent oid fr to (now s)]) /\ env_frame e e'.
Proof. unfold create_status_event. intros H. run_write H; unfold env_frame; repeat split; auto. Qed.

(** The database after a successful [place_order], table by table. *)
Lemma place_order_ok_store r s e o s' e' :
  place_order r s e = (Ok o, s', e') ->
  exists v c s2 o0 o1,
    validate_place_order s r = Some v /\
    order_tables_unchanged s s2 /\ now s2 = now s /\ (next_id s <= next_id s2)%nat /\
    email c = get_default (data_customer v !! "email") "" /\ In c (customers s2) /\
    o0 = mkOrder (next_id s2) (py_upper (rng e (draws e))) (customer_id c) PENDING
           (get_default (data_special_instructions v) "") 0 0 (data_delivery_fee_cents v) 0 None (now s) /\
    recalculate_totals
      (filter (fun i => item_order i = next_id s2)
              (order_items s ++ new_items (next_id s2) (S (next_id s2)) (data_items v))) o0 = Some o1 /\
    o = set_order_updated_at o1 (now s) /\
    s' = mkStore (customers s2) (menu_items s) (replace_order o (orders s ++ [o0]))
           (order_items s ++ new_items (next_id s2) (S (next_id s2)) (data_items v))
           (payments s ++ [mkPayment (next_id s2) CARD (total_cents o) "USD" INITIATED])
           (events s ++ [mkEvent (next_id s2) PENDING PENDING (now s)])
           (S (next_id s2) + length (data_items v)) (now s).
Proof.
  unfold place_order. intros H.
  apply bind_ok in H as (s0 & s1 & e1 & Hg & H); cbn beta in H.
  unfold get_store in Hg. injection Hg as <- <- <-.
  destruct (validate_place_order s r) as [v|] eqn:Hv; [|unfold raise in H; discriminate].
  unfold place_order_create in H.
  apply bind_ok in H as (c0 & s2 & e2 & Hc & H); cbn beta in H.
  apply get_or_create_customer_ok in Hc as (Hs2 & He2 & Hn2 & Hid2 & Hem0 & Hin0).
  pose proof (update_customer_fields_keys c0 (data_customer v)) as [Hk1 Hk2].
  destruct (update_customer_fields c0 _) as [c1 u]. simpl in Hk1, Hk2.
  apply bind_ok in H as (c2 & s3 & e3 & Hu & H); cbn beta in H.
  assert (Hc : exists c, email c = get_default (data_customer v !! "email") "" /\
                 In c (customers s3) /\ customer_id c = customer_id c2 /\
                 order_tables_unchanged s2 s3 /\ now s3 = now s2 /\ next_id s3 = next_id s2 /\
                 env_frame e2 e3).
  { destruct u.
    - apply save_customer_ok in Hu as (-> & -> & He3).
      exists (set_customer_updated_at c1 (now s2)). simpl. repeat split; try assumption.
      + congruence.
      + eapply in_replace_customer; [exact Hin0 | simpl; congruence].
      + apply He3.
      + apply He3.
    - unfold ret in Hu. injection Hu as <- <- <-.
      exists c0. repeat split; try assumption; try congruence. }
  destruct Hc as (c & Hem & Hin & Hcid & Hs3 & Hn3 & Hid3 & He3).
  apply atomic_ok in H.
  apply bind_ok in H as (tok & s4 & e4 & Htok & H); cbn beta in H.
  apply get_random_string_ok in Htok as (-> & -> & Hr4 & Hd4).
  apply bind_ok in H as (o0 & s5 & e5 & Ho0 & H); cbn beta in H.
  apply create_order_store in Ho0 as (Ho0 & -> & He5).
  apply bind_ok in H as (u6 & s6 & e6 & Hits & H); cbn beta in H.
  apply create_order_items_store in Hits as (-> & He6).
  apply bind_ok in H as (o1 & s7 & e7 & Hrec & H); cbn beta in H.
  apply recalculate_totals_db_ok in Hrec as (Hrec & -> & ->).
  apply bind_ok in H as (o2 & s8 & e8 & Hsave & H); cbn beta in H.
  apply save_order_store in Hsave as (-> & -> & He8).
  apply bind_ok in H as (u9 & s9 & e9 & Hpay & H); cbn beta in H.
  apply create_payment_store in Hpay as (-> & He9).
  apply bind_ok in H as (u10 & s10 & e10 & Hev & H); cbn beta in H.
  apply create_status_event_store in Hev as (-> & He10).
  unfold ret in H. injection H as <- <- <-.
  destruct Hs2 as (Ho2 & Hi2 & Hp2 & Hev2 & Hm2).
  destruct Hs3 as (Ho3 & Hi3 & Hp3 & Hev3 & Hm3).
  unfold env_frame in He2, He3.
  exists v, c, s3, o0, o1. simpl in *.
  assert (Hid : order_id o0 = next_id s3) by (rewrite Ho0; reflexivity).
  assert (Hid1 : order_id o1 = next_id s3).
  { apply recalculate_totals_shape in Hrec as (? & _ & ->). exact Hid. }
  rewrite Hid in Hrec. rewrite Hid1.
  split; [reflexivity|]. split; [unfold order_tables_unchanged; intuition congruence|].
  split; [congruence|]. split; [lia|]. split; [exact Hem|]. split; [exact Hin|].
  split. { rewrite Ho0, Hcid. destruct He2 as [Hr2 Hd2], He3 as [Hr3 Hd3].
    rewrite Hr3, Hd3, Hr2, Hd2, Hn3, Hn2. reflexivity. }
  unfold order_items_of in Hrec; simpl in Hrec. rewrite Hi3, Hi2 in Hrec.
  split; [exact Hrec|]. split; [congruence|].
  rewrite Ho3, Ho2, Hi3, Hi2, Hp3, Hp2, Hev3, Hev2, Hm3, Hm2, Hn3, Hn2, Hid. reflexivity.
Qed.

(** ** Validation errors *)

Lemma validate_items_none s rs rq :
  In rq rs -> validate_item s rq = None -> validate_items s rs = None.
Proof.
  induction rs as [|r0 rs IH]; simpl; [tauto|]. intros [->|Hin] Hn.
  - rewrite Hn. reflexivity.
  - rewrite (IH Hin Hn). destruct (validate_item s r0); reflexivity.
Qed.

Lemma place_order_invalid r s e :
  validate_place_order s r = None -> place_order r s e = (Err ValidationError, s, e).
Proof. intros Hv. unfold place_order, bind, get_store. rewrite Hv. reflexivity. Qed.

Lemma find_none_forall {A} (f : A -> bool) (l : list A) :
  (forall x, In x l -> f x = false) -> List.find f l = None.
Proof.
  induction l as [|x l IH]; simpl; [reflexivity|]. intros H.
  rewrite (H x (or_introl eq_refl)). apply IH. intros y Hy. apply H. right. exact Hy.
Qed.

(** A line whose menu item is unknown, inactive or unavailable, or whose
    quantity is outside [1, 100], fails validation: [place_order] raises a
    ValidationError before any write and draws no random token. *)
Theorem place_order_rejects_invalid_line r s e rq :
  In rq (req_items r) ->
  ((forall m, In m (menu_items s) -> menu_item_pk m = req_menu_item_id rq ->
              menu_item_is_active m = false \/ is_available m = false) \/
   req_quantity rq < 1 \/ 100 < req_quantity rq) ->
  place_order r s e = (Err ValidationError, s, e).
Proof.
  intros Hin Hbad. apply place_order_invalid.
  assert (Hi : validate_item s rq = None).
  { unfold validate_item. destruct Hbad as [Hm | Hq].
    - unfold menu_item_queryset_get. rewrite find_none_forall; [reflexivity|].
      intros m Hm'. destruct (decide (menu_item_pk m = req_menu_item_id rq)) as [E|E].
      + destruct (Hm m Hm' E) as [-> | ->]; rewrite ?andb_false_r; reflexivity.
      + rewrite bool_decide_eq_false_2 by exact E. reflexivity.
    - destruct (menu_item_queryset_get s (req_menu_item_id rq)); [|reflexivity].
      destruct Hq as [Hq|Hq].
      + rewrite (proj2 (Z.leb_gt 1 (req_quantity rq)) Hq). reflexivity.
      + rewrite (proj2 (Z.leb_gt (req_quantity rq) 100) Hq), andb_false_r. reflexivity. }
  unfold validate_place_order. rewrite (validate_items_none _ _ _ Hin Hi).
  destruct (dict_field _); [|reflexivity]. destruct (validate_customer _); reflexivity.
Qed.

(** A customer dict without [email] or [full_name], with a value that is
    blank after trimming, or a negative delivery fee fails validation:
    [place_order] raises a ValidationError before any write. *)
Theorem place_order_rejects_customer_or_fee r s e :
  (req_customer r !! "email" = None \/ req_customer r !! "full_name" = None \/
   (exists k x, req_customer r !! k = Some x /\ py_strip x = "") \/
   (exists n, req_delivery_fee_cents r = Some n /\ n < 0)) ->
  place_order r s e = (Err ValidationError, s, e).
Proof.
  intros Hbad. apply place_order_invalid. unfold validate_place_order, dict_field.
  case_bool_decide as Hempty; [reflexivity|].
  case_bool_decide as Hall; [|reflexivity].
  unfold validate_customer. rewrite !lookup_omap.
  destruct Hbad as [He | [Hf | [(k & x & Hk & Hx) | (n & Hn & Hneg)]]].
  - rewrite He. reflexivity.
  - rewrite Hf, andb_false_r. reflexivity.
  - exfalso. destruct (Hall k x Hk) as [y Hy]. unfold char_field in Hy.
    rewrite Hx in Hy. rewrite bool_decide_eq_true_2 in Hy by reflexivity. discriminate.
  - unfold validate_fee. rewrite Hn. rewrite (proj2 (Z.leb_gt 0 n) Hneg).
    destruct (_ && _); [|reflexivity]. destruct (validate_items s (req_items r)); reflexivity.
Qed.

(** ** What a successful placement writes *)

Lemma placed_order_fields r s e o s' e' :
  place_order r s e = (Ok o, s', e') ->
  exists v s2 c,
    validate_place_order s r = Some v /\ (next_id s <= next_id s2)%nat /\
    order_id o = next_id s2 /\ In c (customers s') /\ customer_id c = order_customer o /\
    email c = get_default (data_customer v !! "email") "" /\
    status o = PENDING /\ eta o = None /\ order_updated_at o = now s /\
    special_instructions o = get_default (data_special_instructions v) "" /\
    delivery_fee_cents o = data_delivery_fee_cents v /\
    orders s' = replace_order o (orders s ++ [set_order_updated_at (mkOrder (next_id s2) (order_number o)
                  (order_customer o) PENDING (special_instructions o) 0 0 (delivery_fee_cents o) 0 None (now s)) (now s)]) /\
    order_items s' = order_items s ++ new_items (next_id s2) (S (next_id s2)) (data_items v) /\
    payments s' = payments s ++ [mkPayment (order_id o) CARD (total_cents o) "USD" INITIATED] /\
    events s' = events s ++ [mkEvent (order_id o) PENDING PENDING (now s)] /\
    customers s' = customers s2.
Proof.
  intros H. apply place_order_ok_store in H
    as (v & c & s2 & o0 & o1 & Hv & _ & _ & Hid & Hem & Hin & Ho0 & Hrec & -> & ->).
  apply recalculate_totals_shape in Hrec as (tax & _ & ->). subst o0.
  exists v, s2, c. simpl. repeat split; auto.
Qed.

Lemma validate_place_order_data s r v :
  validate_place_order s r = Some v ->
  data_customer v = omap char_field (req_customer r) /\
  truthy (data_customer v !! "email") = true /\
  validate_items s (req_items r) = Some (data_items v) /\
  data_special_instructions v = option_map py_strip (req_special_instructions r) /\
  validate_fee (req_delivery_fee_cents r) = Some (data_delivery_fee_cents v).
Proof.
  unfold validate_place_order, dict_field, validate_customer. intros H.
  repeat (case_match; simplify_eq; try discriminate). simpl.
  match goal with Hc : truthy _ && truthy _ = true |- _ => apply andb_prop in Hc as [Hc _] end.
  auto.
Qed.

Lemma char_field_some x y : char_field x = Some y -> y = py_strip x.
Proof. unfold char_field. case_bool_decide; congruence. Qed.

(** A successful placement stores a PENDING order with no ETA, adds one
    Order row, exactly one Payment (the order, CARD, the order's total,
    "USD", INITIATED) and exactly one OrderStatusEvent PENDING -> PENDING
    stamped with the current time. *)
Theorem place_order_records r s e o s' e' :
  place_order r s e = (Ok o, s', e') ->
  status o = PENDING /\ eta o = None /\ order_updated_at o = now s /\
  length (orders s') = S (length (orders s)) /\
  payments s' = payments s ++ [mkPayment (order_id o) CARD (total_cents o) "USD" INITIATED] /\
  events s' = events s ++ [mkEvent (order_id o) PENDING PENDING (now s)].
Proof.
  intros H. apply placed_order_fields in H
    as (v & s2 & c & _ & _ & _ & _ & _ & _ & Hst & Heta & Hup & _ & _ & Hord & _ & Hpay & Hev & _).
  repeat split; auto.
  rewrite Hord. unfold replace_order. rewrite length_map, length_app. simpl. lia.
Qed.

(** The placed order belongs to a stored customer whose email is the
    submitted email with surrounding whitespace removed (case is kept);
    its instructions are the trimmed submitted ones (or empty) and its
    delivery fee the submitted one (or 0). *)
Theorem placed_order_customer r s e o s' e' :
  place_order r s e = (Ok o, s', e') ->
  exists c raw, In c (customers s') /\ customer_id c = order_customer o /\
    req_customer r !! "email" = Some raw /\ email c = py_strip raw /\
    special_instructions o = get_default (option_map py_strip (req_special_instructions r)) "" /\
    delivery_fee_cents o = default 0 (req_delivery_fee_cents r).
Proof.
  intros H. apply placed_order_fields in H
    as (v & s2 & c & Hv & _ & _ & Hin & Hcid & Hem & _ & _ & _ & Hsi & Hfee & _).
  apply validate_place_order_data in Hv as (Hcd & Ht & _ & Hsv & Hfv).
  destruct (data_customer v !! "email") as [y|] eqn:Hy; [|discriminate]. simpl in Hem.
  rewrite Hcd, lookup_omap in Hy.
  destruct (req_customer r !! "email") as [raw|]; simpl in Hy; [|discriminate].
  exists c, raw. split; [exact Hin|]. split; [exact Hcid|]. split; [reflexivity|].
  split; [rewrite Hem; exact (char_field_some _ _ Hy)|].
  rewrite Hsi, Hsv. split; [reflexivity|]. rewrite Hfee.
  unfold validate_fee in Hfv. destruct (req_delivery_fee_cents r) as [n|]; simpl;
    [case_match; congruence | congruence].
Qed.

(** ** Line items and totals of a placed order *)

Lemma filter_new_items oid base ds :
  filter (fun i => item_order i = oid) (new_items oid base ds) = new_items oid base ds.
Proof.
  revert base. induction ds as [|d ds IH]; intros base; simpl; [reflexivity|].
  rewrite filter_cons_True by reflexivity. f_equal. apply IH.
Qed.

Lemma filter_old_items (l : list OrderItem) n oid :
  forallb (fun i => Nat.ltb (item_order i) n) l = true -> (n <= oid)%nat ->
  filter (fun i => item_order i = oid) l = [].
Proof.
  induction l as [|i l IH]; simpl; [reflexivity|]. intros H Hn.
  apply andb_prop in H as [Hi H]. apply Nat.ltb_lt in Hi.
  rewrite filter_cons_False by lia. exact (IH H Hn).
Qed.

(** The line items a successful placement attaches to its order. *)
Lemma placed_order_items r s e o s' e' :
  references_below_next_id s = true ->
  place_order r s e = (Ok o, s', e') ->
  exists v base, validate_place_order s r = Some v /\
    order_items_of s' (order_id o) = new_items (order_id o) base (data_items v).
Proof.
  intros Hwf H. apply placed_order_fields in H
    as (v & s2 & c & Hv & Hle & Hid & _ & _ & _ & _ & _ & _ & _ & _ & _ & Hitems & _).
  exists v, (S (next_id s2)). split; [exact Hv|].
  unfold order_items_of. rewrite Hitems, filter_app, Hid, filter_new_items.
  unfold references_below_next_id in Hwf.
  apply andb_prop in Hwf as [Hwf _]. apply andb_prop in Hwf as [Hwf _].
  apply andb_prop in Hwf as [_ Hwf].
  rewrite (filter_old_items _ _ _ Hwf Hle). reflexivity.
Qed.

Definition line_matches_request (s : Store) (rq : ItemRequest) (it : OrderItem) : Prop :=
  item_menu_item it = req_menu_item_id rq /\ quantity it = req_quantity rq /\
  1 <= quantity it <= 100 /\
  exists m, In m (menu_items s) /\ menu_item_pk m = req_menu_item_id rq /\
            menu_item_is_active m = true /\ is_available m = true /\
            unit_price_cents it = price_cents m.

Lemma validate_items_lines s rs ds oid base :
  validate_items s rs = Some ds ->
  Forall2 (line_matches_request s) rs (new_items oid base ds).
Proof.
  revert ds base. induction rs as [|rq rs IH]; intros ds base H; simpl in H.
  - injection H as <-. constructor.
  - destruct (validate_item s rq) as [d|] eqn:Hd; [|discriminate].
    destruct (validate_items s rs) as [ds'|] eqn:Hds; [|discriminate].
    injection H as <-. simpl. constructor; [|apply IH; reflexivity].
    unfold validate_item, menu_item_queryset_get in Hd.
    destruct (List.find _ _) as [m|] eqn:Hf; [|discriminate].
    apply List.find_some in Hf as [Hin Hm].
    apply andb_prop in Hm as [Hm Hav]. apply andb_prop in Hm as [Hpk Hact].
    apply bool_decide_eq_true in Hpk.
    destruct ((1 <=? req_quantity rq) && (req_quantity rq <=? 100)) eqn:Hq; [|discriminate].
    apply andb_prop in Hq as [Hq1 Hq2]. apply Z.leb_le in Hq1, Hq2.
    injection Hd as <-. unfold line_matches_request. simpl.
    repeat split; try assumption. exists m. repeat split; assumption.
Qed.

(** On a database whose ids respect the auto-increment invariant, the
    line items of a placed order correspond one to one, in order, to the
    submitted lines: same menu item, same quantity (between 1 and 100),
    and the unit price is the price of that active, available menu item
    at the time of the order. *)
Theorem place_order_price_snapshot r s e o s' e' :
  references_below_next_id s = true ->
  place_order r s e = (Ok o, s', e') ->
  Forall2 (fun rq it =>
      item_menu_item it = req_menu_item_id rq /\ quantity it = req_quantity rq /\
      1 <= quantity it <= 100 /\
      exists m, In m (menu_items s) /\ menu_item_pk m = req_menu_item_id rq /\
                menu_item_is_active m = true /\ is_available m = true /\
                unit_price_cents it = price_cents m)
    (req_items r) (order_items_of s' (order_id o)).
Proof.
  intros Hwf H. destruct (placed_order_items _ _ _ _ _ _ Hwf H) as (v & base & Hv & ->).
  apply validate_place_order_data in Hv as (_ & _ & Hits & _).
  exact (validate_items_lines _ _ _ _ _ Hits).
Qed.

(** ** Signs of the tax computation *)

Definition non_negative_float (x : spec_float) : Prop :=
  match x with
  | S754_zero s | S754_infinity s | S754_finite s _ _ => s = false
  | S754_nan => True
  end.

Lemma binary_round_aux_sign mx ex lx :
  non_negative_float (binary_round_aux PyFloat.prec PyFloat.emax false mx ex lx).
Proof.
  unfold binary_round_aux.
  destruct (shr_fexp _ _ _ _ _) as [mrs' e'].
  destruct (shr_fexp _ _ _ _ _) as [mrs'' e''].
  destruct (shr_m mrs''); simpl; try reflexivity; try exact I.
  destruct (_ <=? _); reflexivity.
Qed.

Lemma of_int_sign n x : 0 <= n -> PyFloat.of_int n = Some x -> non_negative_float x.
Proof.
  intros Hn. unfold PyFloat.of_int, binary_normalize.
  destruct n as [|p|p]; [intros H; injection H as <-; reflexivity | | lia].
  unfold binary_round. destruct (shl_align _ _ _) as [mz ez].
  pose proof (binary_round_aux_sign (Z.pos mz) ez loc_Exact) as Hs.
  destruct (binary_round_aux _ _ _ _ _ _); intros H; try discriminate; injection H as <-; exact Hs.
Qed.

Lemma round_half_even_pos_nonneg m e : 0 <= PyFloat.round_half_even_pos m e.
Proof.
  unfold PyFloat.round_half_even_pos.
  destruct (0 <=? e) eqn:He.
  - apply Z.leb_le in He. apply Z.mul_nonneg_nonneg; [lia | apply Z.pow_nonneg; lia].
  - assert (0 <= Z.pos m / 2 ^ (- e)) by (apply Z.div_pos; [lia | apply Z.pow_pos_nonneg; lia]).
    destruct (Z.compare _ _); [destruct (Z.even _)|..]; lia.
Qed.

Lemma tax_of_nonneg n t : 0 <= n -> tax_of n = Some t -> 0 <= t.
Proof.
  intros Hn. unfold tax_of. destruct (PyFloat.of_int n) as [x|] eqn:Hx; [|discriminate].
  pose proof (of_int_sign _ _ Hn Hx) as Hs.
  unfold PyFloat.mul. rewrite lit_0_08_value.
  destruct x as [sx|sx| |sx mx ex]; simpl in Hs; subst; simpl; try discriminate.
  - intros H; injection H as <-; lia.
  - pose proof (binary_round_aux_sign (Z.pos (mx * 5764607523034235)) (ex + -56) loc_Exact) as Hr.
    destruct (binary_round_aux _ _ _ _ _ _); simpl in Hr; try discriminate; subst;
      intros H; injection H as <-; [lia | apply round_half_even_pos_nonneg].
Qed.

Lemma line_sum_acc_nonneg (items : list OrderItem) acc :
  0 <= acc -> Forall (fun i => 0 <= quantity i /\ 0 <= unit_price_cents i) items ->
  0 <= fold_left (fun acc i => acc + quantity i * unit_price_cents i) items acc.
Proof.
  revert acc. induction items as [|i items IH]; intros acc Hacc H; simpl; [exact Hacc|].
  inversion H as [|? ? [Hq Hp] Ht]; subst. apply IH; [nia | exact Ht].
Qed.

Lemma validate_fee_nonneg f n : validate_fee f = Some n -> 0 <= n.
Proof. unfold validate_fee. destruct f as [m|]; [case_match|]; intros Hf; simplify_eq; lia. Qed.

Lemma matched_lines_nonneg s rs items :
  Forall (fun m => 0 <= price_cents m) (menu_items s) ->
  Forall2 (line_matches_request s) rs items ->
  Forall (fun i => 0 <= quantity i /\ 0 <= unit_price_cents i) items.
Proof.
  intros Hp Hl. induction Hl as [|rq it rs items Hm Hl IH]; constructor; [|exact IH].
  destruct Hm as (_ & _ & Hq & m & Hin & _ & _ & _ & ->).
  split; [lia|]. rewrite List.Forall_forall in Hp. exact (Hp m Hin).
Qed.

(** When menu prices are non-negative (and ids respect the auto-increment
    invariant), a placed order has a non-negative subtotal, tax and
    delivery fee, and its total is their sum. *)
Theorem placed_order_totals_nonneg r s e o s' e' :
  references_below_next_id s = true ->
  Forall (fun m => 0 <= price_cents m) (menu_items s) ->
  place_order r s e = (Ok o, s', e') ->
  0 <= subtotal_cents o /\ 0 <= tax_cents o /\ 0 <= delivery_fee_cents o /\
  total_cents o = subtotal_cents o + tax_cents o + delivery_fee_cents o.
Proof.
  intros Hwf Hprice H.
  pose proof (placed_order_items _ _ _ _ _ _ Hwf H) as (v & base & Hv & Hitems).
  apply place_order_ok_store in H
    as (v' & c & s2 & o0 & o1 & Hv' & _ & _ & Hle & _ & _ & Ho0 & Hrec & Ho & Hs').
  rewrite Hv in Hv'. injection Hv' as <-.
  apply validate_place_order_data in Hv as (_ & _ & Hits & _ & Hfee).
  apply recalculate_totals_shape in Hrec as (tax & Htax & Ho1).
  assert (Hid : order_id o = next_id s2) by (rewrite Ho, Ho1, Ho0; reflexivity).
  unfold order_items_of in Hitems. rewrite Hs', Hid in Hitems. simpl in Hitems.
  rewrite Hitems in Htax, Ho1.
  assert (Hsub : 0 <= line_sum (new_items (next_id s2) base (data_items v))).
  { unfold line_sum. apply line_sum_acc_nonneg; [lia|].
    eapply matched_lines_nonneg; [exact Hprice|].
    exact (validate_items_lines _ _ _ (next_id s2) base Hits). }
  pose proof (tax_of_nonneg _ _ Hsub Htax) as Ht.
  pose proof (validate_fee_nonneg _ _ Hfee) as Hf.
  rewrite Ho, Ho1, Ho0. simpl. repeat split; lia.
Qed.

(** ** Status transitions *)

Lemma transition_status_run number body s e o st :
  faults e = [] ->
  List.find (fun x => bool_decide (order_number x = number)) (orders s) = Some o ->
  parse_status body = Some st -> st <> status o ->
  transition_status number body s e =
    (Ok (set_status_fields o st (now s)),
     set_events (set_orders s (orders_with_status (orders s) o st (now s)))
                (events s ++ [mkEvent (order_id o) (status o) st (now s)]),
     e).
Proof.
  intros Hf Hfind Hst Hne. destruct e as [fs rg dr]. simpl in Hf. subst fs.
  unfold transition_status, bind, get_order. rewrite Hfind, Hst.
  unfold update_status. rewrite decide_False by exact Hne.
  reflexivity.
Qed.

(** Without a database error, a transition to a different valid status
    returns the order with the new status and [updated_at], rewrites
    exactly these two columns of the order's row and appends exactly one
    OrderStatusEvent from the old to the new status; any status may follow
    any other. *)
Theorem transition_status_success number body s e o st :
  faults e = [] ->
  List.find (fun x => bool_decide (order_number x = number)) (orders s) = Some o ->
  parse_status body = Some st -> st <> status o ->
  transition_status number body s e =
    (Ok (set_status_fields o st (now s)),
     set_events (set_orders s (orders_with_status (orders s) o st (now s)))
                (events s ++ [mkEvent (order_id o) (status o) st (now s)]),
     e).
Proof.
  intros Hf Hfind Hst Hne. exact (transition_status_run _ _ _ _ _ _ Hf Hfind Hst Hne).
Qed.

Lemma find_orders_with_status number (l : list Order) o st t :
  List.find (fun x => bool_decide (order_number x = number)) l = Some o ->
  List.find (fun x => bool_decide (order_number x = number)) (orders_with_status l o st t) =
    Some (set_status_fields o st t).
Proof.
  unfold orders_with_status. induction l as [|x l IH]; simpl; [discriminate|].
  destruct (decide (order_id x = order_id o)) as [E|E]; simpl;
    destruct (bool_decide (order_number x = number)) eqn:Hx.
  - intros H. injection H as <-. reflexivity.
  - exact IH.
  - intros H. injection H as <-. congruence.
  - exact IH.
Qed.

(** Two successive transitions to different statuses (without database
    errors) append exactly the two events old -> first and first ->
    second, in this order, and leave the order in the second status. *)
Theorem transition_status_twice number b1 b2 s e o st1 st2 :
  faults e = [] ->
  List.find (fun x => bool_decide (order_number x = number)) (orders s) = Some o ->
  parse_status b1 = Some st1 -> st1 <> status o ->
  parse_status b2 = Some st2 -> st2 <> st1 ->
  exists s1 s2 o2,
    transition_status number b1 s e = (Ok (set_status_fields o st1 (now s)), s1, e) /\
    transition_status number b2 s1 e = (Ok o2, s2, e) /\
    status o2 = st2 /\ order_id o2 = order_id o /\
    events s2 = events s ++ [mkEvent (order_id o) (status o) st1 (now s);
                             mkEvent (order_id o) st1 st2 (now s)].
Proof.
  intros Hf Hfind H1 Hne1 H2 Hne2.
  rewrite (transition_status_run _ _ _ _ _ _ Hf Hfind H1 Hne1).
  eexists _, _, _. split; [reflexivity|].
  rewrite (transition_status_run _ _ _ _ (set_status_fields o st1 (now s)) st2 Hf); simpl.
  - split; [reflexivity|]. split; [reflexivity|]. split; [reflexivity|].
    rewrite <- app_assoc. reflexivity.
  - apply find_orders_with_status. exact Hfind.
  - exact H2.
  - exact Hne2.
Qed.

Lemma parse_status_values body st : parse_status body = Some st <-> body = status_value st.
Proof.
  split.
  - unfold parse_status. intros H. apply List.find_some in H as [_ H].
    apply bool_decide_eq_true in H. symmetry. exact H.
  - intros ->. destruct st; reflexivity.
Qed.

(** [OrderStatusUpdateView.patch]: an unknown order number gives NotFound
    and a status outside the seven values a ValidationError; in both cases
    nothing is written. *)
Theorem transition_status_errors number body s e :
  (List.find (fun x => bool_decide (order_number x = number)) (orders s) = None ->
   transition_status number body s e = (Err NotFound, s, e)) /\
  (forall o, List.find (fun x => bool_decide (order_number x = number)) (orders s) = Some o ->
   (forall st, body <> status_value st) ->
   transition_status number body s e = (Err ValidationError, s, e)).
Proof.
  split.
  - intros Hf. unfold transition_status, bind, get_order. rewrite Hf. reflexivity.
  - intros o Hf Hb. unfold transition_status, bind, get_order. rewrite Hf.
    destruct (parse_status body) as [st|] eqn:Hp; [|reflexivity].
    exfalso. apply (Hb st). apply parse_status_values. exact Hp.
Qed.

(** ** The events view *)

Lemma map_fmap {A B} (f : A -> B) (l : list A) : map f l = f <$> l.
Proof. induction l as [|x l IH]; simpl; [reflexivity|]. rewrite IH. reflexivity. Qed.

#[global] Instance newer_or_same_total : Total newer_or_same.
Proof. intros a b. unfold newer_or_same. lia. Qed.

Lemma order_events_run number s e :
  (List.find (fun x => bool_decide (order_number x = number)) (orders s) = None ->
   order_events number s e = (Err NotFound, s, e)) /\
  (forall o, List.find (fun x => bool_decide (order_number x = number)) (orders s) = Some o ->
   exists l, order_events number s e = (Ok l, s, e) /\
     l ≡ₚ map event_payload (filter (fun ev => event_order ev = order_id o) (events s)) /\
     Sorted (fun x y => (snd y <= snd x)%nat) l).
Proof.
  split.
  - intros Hf. unfold order_events. rewrite Hf. reflexivity.
  - intros o Hf. unfold order_events. rewrite Hf. eexists. split; [reflexivity|]. split.
    + rewrite !map_fmap. apply fmap_Permutation. apply merge_sort_Permutation.
    + rewrite map_fmap. eapply Sorted_fmap; [|apply Sorted_merge_sort].
      intros x y Hxy. exact Hxy.
      apply _.
Qed.

(** [OrderEventsView.list]: an unknown order number gives a 404 and
    nothing else; otherwise the payload lists exactly the events of that
    order (as [from_status], [to_status], [at]), newest first, and
    nothing is written. *)
Theorem order_events_view number s e :
  (List.find (fun x => bool_decide (order_number x = number)) (orders s) = None ->
   order_events number s e = (Err NotFound, s, e)) /\
  (forall o, List.find (fun x => bool_decide (order_number x = number)) (orders s) = Some o ->
   exists l, order_events number s e = (Ok l, s, e) /\
     l ≡ₚ map event_payload (filter (fun ev => event_order ev = order_id o) (events s)) /\
     Sorted (fun x y => (snd y <= snd x)%nat) l).
Proof. exact (order_events_run number s e). Qed.

Lemma find_replace_fresh (l : list Order) o o0 n :
  forallb (fun x => bool_decide (order_number x <> order_number o)) l = true ->
  forallb (fun x => Nat.ltb (order_id x) n) l = true -> (n <= order_id o)%nat ->
  order_id o0 = order_id o ->
  List.find (fun x => bool_decide (order_number x = order_number o)) (replace_order o (l ++ [o0])) =
    Some o.
Proof.
  intros Hnum Hid Hn H0. unfold replace_order. rewrite map_app.
  induction l as [|x l IH]; simpl in *.
  - rewrite decide_True by exact H0. simpl. rewrite bool_decide_eq_true_2 by reflexivity. reflexivity.
  - apply andb_prop in Hnum as [Hx Hnum]. apply andb_prop in Hid as [Hxi Hid].
    apply bool_decide_eq_true in Hx. apply Nat.ltb_lt in Hxi.
    rewrite decide_False by lia. rewrite bool_decide_eq_false_2 by exact Hx.
    exact (IH Hnum Hid).
Qed.

Lemma filter_old_events (l : list OrderStatusEvent) n oid :
  forallb (fun ev => Nat.ltb (event_order ev) n) l = true -> (n <= oid)%nat ->
  filter (fun ev => event_order ev = oid) l = [].
Proof.
  induction l as [|x l IH]; simpl; [reflexivity|]. intros H Hn.
  apply andb_prop in H as [Hx H]. apply Nat.ltb_lt in Hx.
  rewrite filter_cons_False by lia. exact (IH H Hn).
Qed.

(** Right after a placement, the events endpoint of the new order number
    lists exactly one event, PENDING -> PENDING at the placement time. *)
Theorem placed_order_events_view r s e o s' e' e2 :
  references_below_next_id s = true ->
  place_order r s e = (Ok o, s', e') ->
  order_events (order_number o) s' e2 = (Ok [(PENDING, PENDING, now s)], s', e2).
Proof.
  intros Hwf H.
  pose proof (place_order_ok_facts _ _ _ _ _ _ H) as (_ & _ & _ & _ & Hfresh & _).
  apply place_order_ok_store in H
    as (v & c & s2 & o0 & o1 & _ & _ & _ & Hle & _ & _ & Ho0 & Hrec & Ho & Hs').
  apply recalculate_totals_shape in Hrec as (tax & _ & Ho1).
  assert (Hid : order_id o = next_id s2) by (rewrite Ho, Ho1, Ho0; reflexivity).
  unfold references_below_next_id in Hwf.
  apply andb_prop in Hwf as [Hwf Hev]. apply andb_prop in Hwf as [Hwf _].
  apply andb_prop in Hwf as [Hord _].
  unfold order_events. rewrite Hs'. simpl.
  rewrite (find_replace_fresh _ _ _ (next_id s) Hfresh Hord) by (subst o0; simpl; lia).
  rewrite filter_app, (filter_old_events _ _ _ Hev) by lia.
  rewrite filter_cons_True by exact (eq_sym Hid). reflexivity.
Qed.

(** After a transition to a different status (without database errors),
    the events endpoint of the order lists the events it listed before
    plus the new one, old status -> new status at the current time. *)
Theorem transition_events_view number body s e o st e2 :
  faults e = [] ->
  List.find (fun x => bool_decide (order_number x = number)) (orders s) = Some o ->
  parse_status body = Some st -> st <> status o ->
  exists o' s' l0 l1,
    order_events number s e2 = (Ok l0, s, e2) /\
    transition_status number body s e = (Ok o', s', e) /\
    order_events number s' e2 = (Ok l1, s', e2) /\
    l1 ≡ₚ l0 ++ [(status o, st, now s)].
Proof.
  intros Hf Hfind Hst Hne.
  destruct (proj2 (order_events_run number s e2) o Hfind) as (l0 & H0 & Hp0 & _).
  set (s' := set_events (set_orders s (orders_with_status (orders s) o st (now s)))
                        (events s ++ [mkEvent (order_id o) (status o) st (now s)])).
  assert (Hf' : List.find (fun x => bool_decide (order_number x = number)) (orders s') =
                Some (set_status_fields o st (now s)))
    by (apply find_orders_with_status; exact Hfind).
  destruct (proj2 (order_events_run number s' e2) _ Hf') as (l1 & H1 & Hp1 & _).
  exists (set_status_fields o st (now s)), s', l0, l1.
  split; [exact H0|]. split; [exact (transition_status_run _ _ _ _ _ _ Hf Hfind Hst Hne)|].
  split; [exact H1|].
  rewrite Hp1, Hp0. simpl. rewrite filter_app, filter_cons_True by reflexivity.
  rewrite map_app. reflexivity.
Qed.

(** ** What the order endpoints never do *)

(** The menu is not written and status events are only appended. *)
Definition menu_kept_log_extended (s s' : Store) : Prop :=
  menu_items s' = menu_items s /\ exists l, events s' = events s ++ l.

Definition keeps_menu_and_log {A} (m : M A) : Prop :=
  forall s e r s' e', m s e = (r, s', e') -> menu_kept_log_extended s s'.

Lemma menu_kept_log_extended_refl s : menu_kept_log_extended s s.
Proof. split; [reflexivity | exists []; rewrite app_nil_r; reflexivity]. Qed.

Lemma menu_kept_log_extended_trans s1 s2 s3 :
  menu_kept_log_extended s1 s2 -> menu_kept_log_extended s2 s3 -> menu_kept_log_extended s1 s3.
Proof.
  intros [Hm1 [l1 He1]] [Hm2 [l2 He2]]. split; [congruence|].
  exists (l1 ++ l2). rewrite He2, He1, app_assoc. reflexivity.
Qed.

Lemma kml_bind {A B} (m : M A) (k : A -> M B) :
  keeps_menu_and_log m -> (forall a, keeps_menu_and_log (k a)) -> keeps_menu_and_log (bind m k).
Proof.
  intros Hm Hk s e r s' e'. unfold bind.
  destruct (m s e) as [[[a|er] s1] e1] eqn:H1; intros H.
  - eapply menu_kept_log_extended_trans; [exact (Hm _ _ _ _ _ H1) | exact (Hk a _ _ _ _ _ H)].
  - simplify_eq. exact (Hm _ _ _ _ _ H1).
Qed.

Lemma kml_atomic {A} (body : M A) : keeps_menu_and_log body -> keeps_menu_and_log (atomic body).
Proof.
  intros Hb s e r s' e'. unfold atomic.
  destruct (body s e) as [[[a|er] s1] e1] eqn:H1; intros H; simplify_eq;
    [exact (Hb _ _ _ _ _ H1) | apply menu_kept_log_extended_refl].
Qed.

Lemma kml_pure {A} (m : M A) : (forall s e r s' e', m s e = (r, s', e') -> s' = s) ->
  keeps_menu_and_log m.
Proof. intros Hm s e r s' e' H. rewrite (Hm _ _ _ _ _ H). apply menu_kept_log_extended_refl. Qed.

Ltac kml_close :=
  first [ apply menu_kept_log_extended_refl
        | split; [reflexivity | exists []; rewrite app_nil_r; reflexivity]
        | split; [reflexivity | eexists; reflexivity] ].

Ltac kml_write := intros ? ? ? ? ? Hw; run_write Hw; kml_close.

Lemma kml_create_order_items oid items : keeps_menu_and_log (create_order_items oid items).
Proof.
  induction items as [|d ds IH]; simpl.
  - apply kml_pure. intros ? ? ? ? ? H. unfold ret in H. congruence.
  - apply kml_bind; [|intros; exact IH]. unfold create_order_item. kml_write.
Qed.

Lemma kml_place_order r : keeps_menu_and_log (place_order r).
Proof.
  unfold place_order. apply kml_bind.
  { apply kml_pure. intros ? ? ? ? ? H. unfold get_store in H. congruence. }
  intros s0. destruct (validate_place_order s0 r) as [v|].
  2: { apply kml_pure. intros ? ? ? ? ? H. unfold raise in H. congruence. }
  unfold place_order_create. apply kml_bind.
  { intros s e r' s' e' H. unfold get_or_create_customer in H.
    destruct (List.find _ _); [simplify_eq; apply menu_kept_log_extended_refl|].
    run_write H; kml_close. }
  intros c. destruct (update_customer_fields c _) as [c1 u]. apply kml_bind.
  { destruct u.
    - intros s e r' s' e' H. unfold save_customer in H.
      run_write H; kml_close.
    - apply kml_pure. intros ? ? ? ? ? H. unfold ret in H. congruence. }
  intros c2. apply kml_atomic.
  apply kml_bind; [apply kml_pure; intros ? ? ? ? ? H; unfold get_random_string in H; congruence|].
  intros tok. apply kml_bind.
  { intros s e r' s' e' H. unfold create_order in H. run_write H;
      kml_close. }
  intros o. apply kml_bind; [apply kml_create_order_items|]. intros _.
  apply kml_bind; [apply kml_pure; intros ? ? ? ? ? H; unfold recalculate_totals_db in H; case_match; congruence|].
  intros o1. apply kml_bind.
  { intros s e r' s' e' H. unfold save_order in H. run_write H;
      kml_close. }
  intros o2. apply kml_bind; [unfold create_payment; intros ? ? ? ? ? Hw; run_write Hw; kml_close|].
  intros _. apply kml_bind; [unfold create_status_event; kml_write|].
  intros _. apply kml_pure. intros ? ? ? ? ? H. unfold ret in H. congruence.
Qed.

Lemma kml_transition_status number body : keeps_menu_and_log (transition_status number body).
Proof.
  unfold transition_status. apply kml_bind.
  { apply kml_pure. intros s e r s' e' H. unfold get_order in H. case_match; congruence. }
  intros o. destruct (parse_status body) as [st|].
  2: { apply kml_pure. intros ? ? ? ? ? H. unfold raise in H. congruence. }
  unfold update_status. destruct (decide _).
  { apply kml_pure. intros ? ? ? ? ? H. unfold ret in H. congruence. }
  apply kml_bind.
  { intros s e r' s' e' H. unfold save_order_status in H. run_write H;
      kml_close. }
  intros o1. apply kml_bind; [unfold create_status_event; kml_write|].
  intros _. apply kml_pure. intros ? ? ? ? ? H. unfold ret in H. congruence.
Qed.

(** Neither placing an order nor changing a status ever writes the menu,
    whatever the outcome. *)
Theorem menu_never_written :
  (forall r s e res s' e', place_order r s e = (res, s', e') -> menu_items s' = menu_items s) /\
  (forall number body s e res s' e',
     transition_status number body s e = (res, s', e') -> menu_items s' = menu_items s).
Proof.
  split.
  - intros r s e res s' e' H. exact (proj1 (kml_place_order r _ _ _ _ _ H)).
  - intros number body s e res s' e' H. exact (proj1 (kml_transition_status number body _ _ _ _ _ H)).
Qed.

(** Placing an order and changing a status never remove or rewrite an
    OrderStatusEvent: the events after the call are those before it
    followed by new ones, whatever the outcome. *)
Theorem event_log_append_only :
  (forall r s e res s' e', place_order r s e = (res, s', e') ->
     exists l, events s' = events s ++ l) /\
  (forall number body s e res s' e',
     transition_status number body s e = (res, s', e') -> exists l, events s' = events s ++ l).
Proof.
  split.
  - intros r s e res s' e' H. exact (proj2 (kml_place_order r _ _ _ _ _ H)).
  - intros number body s e res s' e' H. exact (proj2 (kml_transition_status number body _ _ _ _ _ H)).
Qed.

(** ** The customer row of a first order *)

(** For an email no stored customer has, [place_order] inserts exactly
    one Customer row (active, built from the validated dict, phone and
    address defaulting to empty) and never modifies it afterwards, even
    when the order itself then fails; only a database error on that
    insert leaves the table unchanged. *)
Theorem place_order_new_customer r s e v res s' e' :
  validate_place_order s r = Some v ->
  Forall (fun c => email c <> get_default (data_customer v !! "email") "") (customers s) ->
  place_order r s e = (res, s', e') ->
  (res = Err DatabaseError /\ customers s' = customers s) \/
  customers s' = customers s ++
    [mkCustomer (next_id s) (get_default (data_customer v !! "email") "")
                (get_default (data_customer v !! "full_name") "")
                (get_default (data_customer v !! "phone") "")
                (get_default (data_customer v !! "address") "") true (now s)].
Proof.
  intros Hv Hnew H.
  unfold place_order in H. rewrite (bind_run get_store _ s e s s e) in H by reflexivity.
  cbn beta in H. rewrite Hv in H. unfold place_order_create in H.
  rewrite List.Forall_forall in Hnew.
  destruct (get_or_create_customer (get_default (data_customer v !! "email") "")
             (get_default (data_customer v !! "full_name") "") (get_default (data_customer v !! "phone") "")
             (get_default (data_customer v !! "address") "") s e) as [[[c|er] s1] e1] eqn:Hg.
  - rewrite (bind_run _ _ _ _ _ _ _ Hg) in H. cbn beta in H.
    unfold get_or_create_customer in Hg.
    rewrite find_none_forall in Hg
      by (intros x Hx; apply bool_decide_eq_false_2; exact (Hnew x Hx)).
    unfold write, pop_fault in Hg.
    assert (Hok : forallb (fun x => bool_decide (email x <> get_default (data_customer v !! "email") ""))
                    (customers s) = true).
    { apply forallb_forall. intros x Hx. apply bool_decide_eq_true_2. exact (Hnew x Hx). }
    rewrite Hok in Hg.
    destruct (faults e) as [|[] fs]; simpl in Hg; try discriminate;
      injection Hg as <- <- <-;
      rewrite update_customer_fields_same in H by reflexivity;
      rewrite (bind_run (ret _) _ _ _ _ _ _ eq_refl) in H;
      apply keeps_place_order_body in H; right; rewrite H; reflexivity.
  - rewrite (bind_err_run _ _ _ _ _ _ _ Hg) in H. injection H as <- <- <-.
    unfold get_or_create_customer in Hg.
    rewrite find_none_forall in Hg
      by (intros x Hx; apply bool_decide_eq_false_2; exact (Hnew x Hx)).
    unfold write, pop_fault in Hg.
    assert (Hok : forallb (fun x => bool_decide (email x <> get_default (data_customer v !! "email") ""))
                    (customers s) = true).
    { apply forallb_forall. intros x Hx. apply bool_decide_eq_true_2. exact (Hnew x Hx). }
    rewrite Hok in Hg.
    left. destruct (faults e) as [|[] fs]; simpl in Hg; try discriminate;
      injection Hg as <- <- <-; split; reflexivity.
Qed.

(** ** Exact decimal rounding of small subtotals *)

(** For subtotals from 0 to 5000 cents the binary64 tax computation is
    exact decimal rounding: the tax is 8% of the subtotal rounded half up,
    [(8 * subtotal + 50) / 100]. *)
Theorem recalculate_totals_small_subtotal items o o' :
  0 <= line_sum items <= 5000 ->
  recalculate_totals items o = Some o' ->
  tax_cents o' = (8 * line_sum items + 50) / 100.
Proof.
  intros Hr H. apply recalculate_totals_shape in H as (tax & Htax & ->). simpl.
  pose proof tax_of_small_range as Hall. rewrite forallb_forall in Hall.
  specialize (Hall (Z.to_nat (line_sum items))).
  rewrite Z2Nat.id in Hall by lia.
  assert (Hin : In (Z.to_nat (line_sum items)) (seq 0 (Z.to_nat 5001))).
  { apply in_seq. lia. }
  specialize (Hall Hin). apply bool_decide_eq_true in Hall. congruence.
Qed.

(** ** Concrete runs of the further properties *)

(** The unavailable menu item 2 among the lines. *)
Definition req_unavailable_line : PlaceOrderRequest :=
  mkPlaceOrderRequest ann_fixture [mkItemRequest 1 1; mkItemRequest 2 1] None None.

Definition req_negative_fee : PlaceOrderRequest :=
  mkPlaceOrderRequest ann_fixture [mkItemRequest 1 1] None (Some (-5)).

Lemma place_order_rejects_invalid_line_witness :
  place_order req_unavailable_line store_fixture env_fixture =
    (Err ValidationError, store_fixture, env_fixture).
Proof.
  apply (place_order_rejects_invalid_line req_unavailable_line store_fixture env_fixture
           (mkItemRequest 2 1)).
  - simpl. right. left. reflexivity.
  - left. simpl. intros m [<-|[<-|[]]] Hpk; simpl in *; [discriminate Hpk | right; reflexivity].
Defined.

Lemma place_order_rejects_customer_or_fee_witness :
  place_order req_negative_fee store_fixture env_fixture =
    (Err ValidationError, store_fixture, env_fixture).
Proof.
  apply place_order_rejects_customer_or_fee.
  right. right. right. exists (-5). split; [reflexivity | lia].
Defined.

Ltac run_place req st env thm :=
  match eval vm_compute in (place_order req st env) with
  | (Ok ?o, ?s', ?e') =>
      let H := fresh "H" in
      assert (H : place_order req st env = (Ok o, s', e')) by (vm_compute; reflexivity);
      exists o, s', e'; split; [exact H | thm H]
  end.

Lemma place_order_records_witness :
  exists o s' e', place_order req_fixture store_fixture env_fixture = (Ok o, s', e') /\
    status o = PENDING /\ eta o = None /\ order_updated_at o = now store_fixture /\
    length (orders s') = S (length (orders store_fixture)) /\
    payments s' = payments store_fixture ++ [mkPayment (order_id o) CARD (total_cents o) "USD" INITIATED] /\
    events s' = events store_fixture ++ [mkEvent (order_id o) PENDING PENDING (now store_fixture)].
Proof.
  run_place req_fixture store_fixture env_fixture
    ltac:(fun H => exact (place_order_records _ _ _ _ _ _ H)).
Defined.

Lemma placed_order_customer_witness :
  exists o s' e', place_order req_fixture store_fixture env_fixture = (Ok o, s', e') /\
    exists c raw, In c (customers s') /\ customer_id c = order_customer o /\
      req_customer req_fixture !! "email" = Some raw /\ email c = py_strip raw /\
      special_instructions o = get_default (option_map py_strip (req_special_instructions req_fixture)) "" /\
      delivery_fee_cents o = default 0 (req_delivery_fee_cents req_fixture).
Proof.
  run_place req_fixture store_fixture env_fixture
    ltac:(fun H => exact (placed_order_customer _ _ _ _ _ _ H)).
Defined.

Lemma place_order_price_snapshot_witness :
  exists o s' e', place_order req_fixture store_fixture env_fixture = (Ok o, s', e') /\
    Forall2 (fun rq it =>
      item_menu_item it = req_menu_item_id rq /\ quantity it = req_quantity rq /\
      1 <= quantity it <= 100 /\
      exists m, In m (menu_items store_fixture) /\ menu_item_pk m = req_menu_item_id rq /\
                menu_item_is_active m = true /\ is_available m = true /\
                unit_price_cents it = price_cents m)
      (req_items req_fixture) (order_items_of s' (order_id o)).
Proof.
  run_place req_fixture store_fixture env_fixture
    ltac:(fun H => exact (place_order_price_snapshot req_fixture store_fixture env_fixture _ _ _ eq_refl H)).
Defined.

Lemma placed_order_totals_nonneg_witness :
  exists o s' e', place_order req_fixture store_fixture env_fixture = (Ok o, s', e') /\
    0 <= subtotal_cents o /\ 0 <= tax_cents o /\ 0 <= delivery_fee_cents o /\
    total_cents o = subtotal_cents o + tax_cents o + delivery_fee_cents o.
Proof.
  assert (Hp : Forall (fun m => 0 <= price_cents m) (menu_items store_fixture))
    by (repeat constructor; simpl; lia).
  run_place req_fixture store_fixture env_fixture
    ltac:(fun H => exact (placed_order_totals_nonneg req_fixture store_fixture env_fixture _ _ _ eq_refl Hp H)).
Defined.

Lemma placed_order_events_view_witness :
  exists o s' e', place_order req_fixture store_fixture env_fixture = (Ok o, s', e') /\
    order_events (order_number o) s' e' = (Ok [(PENDING, PENDING, now store_fixture)], s', e').
Proof.
  run_place req_fixture store_fixture env_fixture
    ltac:(fun H => exact (placed_order_events_view req_fixture store_fixture env_fixture _ _ _ _ eq_refl H)).
Defined.

Lemma place_order_new_customer_witness :
  exists v res s' e',
    validate_place_order store_fixture req_fixture = Some v /\
    place_order req_fixture store_fixture env_fixture = (res, s', e') /\
    ((res = Err DatabaseError /\ customers s' = customers store_fixture) \/
     customers s' = customers store_fixture ++
       [mkCustomer (next_id store_fixture) (get_default (data_customer v !! "email") "")
                   (get_default (data_customer v !! "full_name") "")
                   (get_default (data_customer v !! "phone") "")
                   (get_default (data_customer v !! "address") "") true (now store_fixture)]).
Proof.
  match eval vm_compute in (validate_place_order store_fixture req_fixture) with
  | Some ?v =>
    assert (Hv : validate_place_order store_fixture req_fixture = Some v)
      by (vm_compute; reflexivity);
    match eval vm_compute in (place_order req_fixture store_fixture env_fixture) with
    | (?res, ?s', ?e') =>
      assert (H : place_order req_fixture store_fixture env_fixture = (res, s', e'))
        by (vm_compute; reflexivity);
      exists v, res, s', e'; split; [exact Hv|]; split; [exact H|];
      exact (place_order_new_customer _ _ _ _ _ _ _ Hv (List.Forall_nil _) H)
    end
  end.
Defined.

Lemma menu_never_written_witness :
  (let '(_, s', _) := place_order req_fixture store_fixture env_fixture in
   menu_items s' = menu_items store_fixture) /\
  (let '(_, s', _) := transition_status "ABCDEFGHIJ" "CONFIRMED" store_with_order env_fixture in
   menu_items s' = menu_items store_with_order).
Proof.
  split.
  - destruct (place_order req_fixture store_fixture env_fixture) as [[res s'] e'] eqn:H.
    exact (proj1 menu_never_written _ _ _ _ _ _ H).
  - destruct (transition_status "ABCDEFGHIJ" "CONFIRMED" store_with_order env_fixture)
      as [[res s'] e'] eqn:H.
    exact (proj2 menu_never_written _ _ _ _ _ _ _ H).
Defined.

Lemma event_log_append_only_witness :
  (let '(_, s', _) := place_order req_fixture store_fixture env_fixture in
   exists l, events s' = events store_fixture ++ l) /\
  (let '(_, s', _) := transition_status "ABCDEFGHIJ" "CONFIRMED" store_with_order env_event_write_fails in
   exists l, events s' = events store_with_order ++ l).
Proof.
  split.
  - destruct (place_order req_fixture store_fixture env_fixture) as [[res s'] e'] eqn:H.
    exact (proj1 event_log_append_only _ _ _ _ _ _ H).
  - destruct (transition_status "ABCDEFGHIJ" "CONFIRMED" store_with_order env_event_write_fails)
      as [[res s'] e'] eqn:H.
    exact (proj2 event_log_append_only _ _ _ _ _ _ _ H).
Defined.

Lemma transition_status_success_witness :
  transition_status "ABCDEFGHIJ" "CONFIRMED" store_with_order env_fixture =
    (Ok (set_status_fields placed_order CONFIRMED (now store_with_order)),
     set_events (set_orders store_with_order
                   (orders_with_status (orders store_with_order) placed_order CONFIRMED (now store_with_order)))
                (events store_with_order ++
                 [mkEvent (order_id placed_order) (status placed_order) CONFIRMED (now store_with_order)]),
     env_fixture).
Proof. apply transition_status_success; vm_compute; first [reflexivity | discriminate]. Defined.

Lemma transition_status_twice_witness :
  exists s1 s2 o2,
    transition_status "ABCDEFGHIJ" "CONFIRMED" store_with_order env_fixture =
      (Ok (set_status_fields placed_order CONFIRMED (now store_with_order)), s1, env_fixture) /\
    transition_status "ABCDEFGHIJ" "CANCELLED" s1 env_fixture = (Ok o2, s2, env_fixture) /\
    status o2 = CANCELLED /\ order_id o2 = order_id placed_order /\
    events s2 = events store_with_order ++
      [mkEvent (order_id placed_order) (status placed_order) CONFIRMED (now store_with_order);
       mkEvent (order_id placed_order) CONFIRMED CANCELLED (now store_with_order)].
Proof. apply transition_status_twice; vm_compute; first [reflexivity | discriminate]. Defined.

Lemma transition_status_errors_witness :
  transition_status "ZZZZZZZZZZ" "CONFIRMED" store_with_order env_fixture =
    (Err NotFound, store_with_order, env_fixture) /\
  transition_status "ABCDEFGHIJ" "SHIPPED" store_with_order env_fixture =
    (Err ValidationError, store_with_order, env_fixture).
Proof.
  split.
  - apply (proj1 (transition_status_errors _ _ _ _)). vm_compute. reflexivity.
  - apply (proj2 (transition_status_errors _ _ _ _) placed_order).
    + vm_compute. reflexivity.
    + intros st. destruct st; vm_compute; discriminate.
Defined.

Lemma order_events_view_witness :
  order_events "ZZZZZZZZZZ" store_with_order env_fixture =
    (Err NotFound, store_with_order, env_fixture) /\
  exists l, order_events "ABCDEFGHIJ" store_with_order env_fixture = (Ok l, store_with_order, env_fixture) /\
    l ≡ₚ map event_payload (filter (fun ev => event_order ev = order_id placed_order) (events store_with_order)) /\
    Sorted (fun x y => (snd y <= snd x)%nat) l.
Proof.
  split.
  - apply (proj1 (order_events_view _ _ _)). vm_compute. reflexivity.
  - apply (proj2 (order_events_view _ _ _) placed_order). vm_compute. reflexivity.
Defined.

Lemma transition_events_view_witness :
  exists o' s' l0 l1,
    order_events "ABCDEFGHIJ" store_with_order env_fixture = (Ok l0, store_with_order, env_fixture) /\
    transition_status "ABCDEFGHIJ" "CONFIRMED" store_with_order env_fixture = (Ok o', s', env_fixture) /\
    order_events "ABCDEFGHIJ" s' env_fixture = (Ok l1, s', env_fixture) /\
    l1 ≡ₚ l0 ++ [(status placed_order, CONFIRMED, now store_with_order)].
Proof. apply transition_events_view; vm_compute; first [reflexivity | discriminate]. Defined.

Lemma recalculate_totals_small_subtotal_witness :
  exists o', recalculate_totals line_fixture order_fixture = Some o' /\
    tax_cents o' = (8 * line_sum line_fixture + 50) / 100.
Proof.
  match eval vm_compute in (recalculate_totals line_fixture order_fixture) with
  | Some ?o' =>
      assert (H : recalculate_totals line_fixture order_fixture = Some o')
        by (vm_compute; reflexivity);
      exists o'; split; [exact H|];
      apply (recalculate_totals_small_subtotal line_fixture order_fixture o');
      [vm_compute; split; discriminate | exact H]
  end.
Defined.
